(** * Docsvault API client (docsvaultapi.py): a shallow embedding

    Every routine of the module builds a URL, performs one HTTP request,
    parses the XML body with xmltodict, tests the envelope's status code and
    reshapes the result.  The two external collaborators (the HTTP transport
    and the XML parser) are the interactions of a small interaction type
    [IO]; everything between them is pure Python expression evaluation in the
    exception monad [sum Exn]. *)

From Stdlib Require Import String Ascii List ZArith Lia Bool DecimalString DecimalZ DecimalPos.
From ExtLib Require Import Structures.Monad Structures.MonadExc Data.Monads.EitherMonad.
Import ListNotations MonadNotation.
Open Scope string_scope.
Open Scope monad_scope.
Open Scope Z_scope.

(** ** Python values and exceptions *)

(** Hashable values, usable as dictionary keys. *)
Inductive PyKey : Type :=
| KNone
| KBool (b : bool)
| KStr (s : string).

Set Warnings "-register-all".

(** The values the module handles: what xmltodict produces (None, str, dict,
    list) and what the wrappers add (bool). Dictionaries keep insertion
    order. *)
Inductive PyVal : Type :=
| PNone
| PBool (b : bool)
| PStr (s : string)
| PList (l : list PyVal)
| PDict (d : list (PyKey * PyVal)).

Inductive Exn : Type :=
| RequestException (msg : string)   (* requests.exceptions.RequestException *)
| ValueError (msg : string)
| KeyError (key : string)
| TypeError
| AttributeError
| ExpatError                        (* raised by the XML parser *)
| ConnectionError.                  (* raised by the HTTP transport *)

Abbreviation Exc := (sum Exn).

Definition PyKey_eqb (a b : PyKey) : bool :=
  match a, b with
  | KNone, KNone => true
  | KBool x, KBool y => Bool.eqb x y
  | KStr x, KStr y => String.eqb x y
  | _, _ => false
  end.

Definition key_value (k : PyKey) : PyVal :=
  match k with
  | KNone => PNone
  | KBool b => PBool b
  | KStr s => PStr s
  end.

Fixpoint dict_lookup (k : PyKey) (d : list (PyKey * PyVal)) : option PyVal :=
  match d with
  | [] => None
  | (k', v) :: tl => if PyKey_eqb k k' then Some v else dict_lookup k tl
  end.

(** [d[k] = v]: an existing key keeps its position, a new one is appended. *)
Fixpoint dict_set (k : PyKey) (v : PyVal) (d : list (PyKey * PyVal))
  : list (PyKey * PyVal) :=
  match d with
  | [] => [(k, v)]
  | (k', v') :: tl =>
      if PyKey_eqb k k' then (k', v) :: tl else (k', v') :: dict_set k v tl
  end.

(** [v[k]] with a string subscript. *)
Definition py_getitem (v : PyVal) (k : string) : Exc PyVal :=
  match v with
  | PDict d =>
      match dict_lookup (KStr k) d with
      | Some x => ret x
      | None => raise (KeyError k)
      end
  | _ => raise TypeError
  end.

(** [v[k1][k2]...[kn]], evaluated left to right. *)
Fixpoint py_path (v : PyVal) (ks : list string) : Exc PyVal :=
  match ks with
  | [] => ret v
  | k :: tl => x <- py_getitem v k ;; py_path x tl
  end.

(** [v.get(k, default)]; only dictionaries have the method. *)
Definition py_get (v : PyVal) (k : string) (default : PyVal) : Exc PyVal :=
  match v with
  | PDict d =>
      match dict_lookup (KStr k) d with
      | Some x => ret x
      | None => ret default
      end
  | _ => raise AttributeError
  end.

(** [v == "s"] against a string literal. *)
Definition py_eq_str (v : PyVal) (s : string) : bool :=
  match v with
  | PStr s' => String.eqb s' s
  | _ => false
  end.

(** [v is None]. *)
Definition py_is_none (v : PyVal) : bool :=
  match v with
  | PNone => true
  | _ => false
  end.

(** [isinstance(v, dict)]. *)
Definition py_is_dict (v : PyVal) : bool :=
  match v with
  | PDict _ => true
  | _ => false
  end.

(** ["prefix" + v]: concatenation to a string literal. *)
Definition py_add_str (prefix : string) (v : PyVal) : Exc string :=
  match v with
  | PStr s => ret (prefix ++ s)
  | _ => raise TypeError
  end.

(** [hash(v)] as needed to use [v] as a key. *)
Definition py_hashable (v : PyVal) : Exc PyKey :=
  match v with
  | PNone => ret KNone
  | PBool b => ret (KBool b)
  | PStr s => ret (KStr s)
  | PList _ | PDict _ => raise TypeError
  end.

(** [for x in v]: a list gives its items, a dictionary its keys, a string its
    characters. *)
Definition py_iter (v : PyVal) : Exc (list PyVal) :=
  match v with
  | PList l => ret l
  | PDict d => ret (map (fun kv => key_value (fst kv)) d)
  | PStr s => ret (map (fun c => PStr (String c EmptyString)) (list_ascii_of_string s))
  | PNone | PBool _ => raise TypeError
  end.

Fixpoint mapM {A B : Type} (f : A -> Exc B) (l : list A) : Exc (list B) :=
  match l with
  | [] => ret []
  | x :: tl => y <- f x ;; ys <- mapM f tl ;; ret (y :: ys)
  end.

(** [[f(x) for x in v]]. *)
Definition py_listcomp (f : PyVal -> Exc PyVal) (v : PyVal) : Exc PyVal :=
  l <- py_iter v ;;
  r <- mapM f l ;;
  ret (PList r).

Fixpoint dictcomp_loop (fk fv : PyVal -> Exc PyVal) (l : list PyVal)
  (acc : list (PyKey * PyVal)) : Exc (list (PyKey * PyVal)) :=
  match l with
  | [] => ret acc
  | x :: tl =>
      k <- fk x ;;
      v <- fv x ;;
      hk <- py_hashable k ;;
      dictcomp_loop fk fv tl (dict_set hk v acc)
  end.

(** [{fk(x): fv(x) for x in v}]. *)
Definition py_dictcomp (fk fv : PyVal -> Exc PyVal) (v : PyVal) : Exc PyVal :=
  l <- py_iter v ;;
  d <- dictcomp_loop fk fv l [] ;;
  ret (PDict d).

Fixpoint dict_items (l : list (string * Exc PyVal)) : Exc (list (PyKey * PyVal)) :=
  match l with
  | [] => ret []
  | (k, e) :: tl => v <- e ;; r <- dict_items tl ;; ret ((KStr k, v) :: r)
  end.

(** A dictionary display [{"k1": e1, ..., "kn": en}]: the entries are
    evaluated in order and the first exception wins. *)
Definition py_dict (l : list (string * Exc PyVal)) : Exc PyVal :=
  d <- dict_items l ;; ret (PDict d).

(** [s.rstrip(c)] for a one-character argument. *)
Fixpoint rstrip (s : string) (c : ascii) : string :=
  match s with
  | EmptyString => EmptyString
  | String a tl =>
      match rstrip tl c with
      | EmptyString => if Ascii.eqb a c then EmptyString else String a EmptyString
      | r => String a r
      end
  end.

(** [str(n)] for an integer. *)
Definition py_str_int (n : Z) : string := NilZero.string_of_int (Z.to_int n).

(** ** The HTTP transport and the XML parser *)

Inductive Method : Type := GET | POST.

Record Request : Type := mkRequest {
  req_method : Method;
  req_url : string;
  req_params : list (string * string)
}.

Record Response : Type := mkResponse {
  status_code : Z;
  content : string
}.

(** A routine is a tree of interactions: it ends with a value or an
    exception, or asks the transport for a response, or asks the parser for
    the tree of a body. *)
Inductive IO (A : Type) : Type :=
| Done (r : Exc A)
| Http (req : Request) (k : Response -> IO A)
| XmlParse (body : string) (k : PyVal -> IO A).

Arguments Done {A} r.
Arguments Http {A} req k.
Arguments XmlParse {A} body k.

Definition requests_get {A} (url : string) (params : list (string * string))
  (k : Response -> IO A) : IO A := Http (mkRequest GET url params) k.

Definition requests_post {A} (url : string) (params : list (string * string))
  (k : Response -> IO A) : IO A := Http (mkRequest POST url params) k.

Definition xmltodict_parse {A} (body : string) (k : PyVal -> IO A) : IO A :=
  XmlParse body k.

Notation "x <~ c1 ;; c2" := (c1 (fun x => c2))
  (at level 61, c1 at next level, right associativity).

(** The outside world: what the server answers to a request and what the
    parser makes of a body; either may raise. *)
Record World : Type := mkWorld {
  send : Request -> Exc Response;
  xml_parse : string -> Exc PyVal
}.

Inductive Event : Type :=
| Sent (req : Request)
| Parsed (body : string).

(** Running a routine in a world gives the interactions that took place and
    the outcome. *)
Fixpoint run {A} (w : World) (t : IO A) : list Event * Exc A :=
  match t with
  | Done r => ([], r)
  | Http req k =>
      match send w req with
      | inl e => ([Sent req], inl e)
      | inr resp => let (tr, r) := run w (k resp) in (Sent req :: tr, r)
      end
  | XmlParse body k =>
      match xml_parse w body with
      | inl e => ([Parsed body], inl e)
      | inr v => let (tr, r) := run w (k v) in (Parsed body :: tr, r)
      end
  end.

(** ** The routines, in source order *)

Definition docsvault_login (username password api_url : string) : IO PyVal :=
  let action := "Login" in
  let params := [("UserName", username); ("Password", password)] in
  let full_api_url := rstrip api_url "/" ++ "/DocsvaultAPI/" ++ action in
  response <~ requests_get (full_api_url ++ action) params ;;
  if status_code response =? 200 then
    let response_xml := content response in
    response_dict <~ xmltodict_parse response_xml ;;
    Done (
      sc <- py_path response_dict ["Docsvault"; "Response"; "StatusCode"] ;;
      if py_eq_str sc "1" then
        error_message <- py_path response_dict ["Docsvault"; "Response"; "Message"] ;;
        msg <- py_add_str "Login failed. " error_message ;;
        raise (ValueError msg)
      else
        token_id <- py_path response_dict ["Docsvault"; "Result"; "TokenID"] ;;
        if py_is_none token_id || py_eq_str token_id "" then
          raise (ValueError "Login failed. Token ID not found in API response.")
        else
          ret token_id)
  else
    Done (raise (RequestException
      ("Login request failed with status code: " ++ py_str_int (status_code response)))).

Definition docsvault_login_post (username password api_url : string) : IO PyVal :=
  let action := "LoginPost" in
  let params := [("UserName", username); ("Password", password)] in
  let full_api_url := rstrip api_url "/" ++ "/DocsvaultAPI/" ++ action in
  response <~ requests_post full_api_url params ;;
  if status_code response =? 200 then
    let response_xml := content response in
    response_dict <~ xmltodict_parse response_xml ;;
    Done (
      sc <- py_path response_dict ["Docsvault"; "Response"; "StatusCode"] ;;
      if py_eq_str sc "1" then
        error_message <- py_path response_dict ["Docsvault"; "Response"; "Message"] ;;
        msg <- py_add_str "Login failed. " error_message ;;
        raise (ValueError msg)
      else
        token_id <- py_path response_dict ["Docsvault"; "Result"] ;;
        if py_is_none token_id || py_eq_str token_id "" then
          raise (ValueError "Login failed. Token ID not found in API response.")
        else
          ret token_id)
  else
    Done (raise (RequestException
      ("Login request failed with status code: " ++ py_str_int (status_code response)))).

Definition docsvault_logout (token_id username api_url : string) : IO PyVal :=
  let action := "Logout" in
  let params := [("TokenID", token_id); ("UserName", username)] in
  let full_api_url := rstrip api_url "/" ++ "/DocsvaultAPI/" ++ action in
  response <~ requests_get full_api_url params ;;
  if status_code response =? 200 then
    let response_xml := content response in
    response_dict <~ xmltodict_parse response_xml ;;
    Done (
      sc <- py_path response_dict ["Docsvault"; "Response"; "StatusCode"] ;;
      if py_eq_str sc "1" then
        error_message <- py_path response_dict ["Docsvault"; "Response"; "Message"] ;;
        msg <- py_add_str "Logout failed. " error_message ;;
        raise (ValueError msg)
      else
        ret PNone)
  else
    Done (raise (RequestException
      ("Logout request failed with status code: " ++ py_str_int (status_code response)))).

Definition docsvault_get_login_user_id (token_id api_url : string) : IO PyVal :=
  let action := "GetLoginUserID" in
  let params := [("TokenID", token_id)] in
  let full_api_url := rstrip api_url "/" ++ "/DocsvaultAPI/" ++ action in
  response <~ requests_get full_api_url params ;;
  if status_code response =? 200 then
    let response_xml := content response in
    response_dict <~ xmltodict_parse response_xml ;;
    Done (
      sc <- py_path response_dict ["Docsvault"; "Response"; "StatusCode"] ;;
      if py_eq_str sc "1" then
        error_message <- py_path response_dict ["Docsvault"; "Response"; "Message"] ;;
        msg <- py_add_str "GetLoginUserID failed. " error_message ;;
        raise (ValueError msg)
      else
        user_id <- py_path response_dict ["Docsvault"; "Result"; "UserID"] ;;
        if py_is_none user_id || py_eq_str user_id "" then
          raise (ValueError "GetLoginUserID failed. User ID not found in API response.")
        else
          ret user_id)
  else
    Done (raise (RequestException
      ("GetLoginUserID request failed with status code: " ++ py_str_int (status_code response)))).

Definition docsvault_get_user_details_by_name (token_id user_name api_url : string)
  : IO PyVal :=
  let action := "UserDetails/GetUserDetailsByName" in
  let params := [("TokenID", token_id); ("UserName", user_name)] in
  let full_api_url := rstrip api_url "/" ++ "/DocsvaultAPI/" ++ action in
  response <~ requests_get full_api_url params ;;
  if status_code response =? 200 then
    let response_xml := content response in
    response_dict <~ xmltodict_parse response_xml ;;
    Done (
      sc <- py_path response_dict ["Docsvault"; "Response"; "StatusCode"] ;;
      if py_eq_str sc "0" then
        user_detail <- py_path response_dict ["Docsvault"; "Result"; "UserDetail"] ;;
        py_dict [
          ("user_id", py_getitem user_detail "UserID");
          ("user_name", py_getitem user_detail "UserName");
          ("full_name", py_getitem user_detail "UserFullName");
          ("description", py_getitem user_detail "UserDescription");
          ("email", py_getitem user_detail "UserEmail");
          ("dv_authentication", py_getitem user_detail "DVAuthentication");
          ("web_access", py_getitem user_detail "WebAccess");
          ("license_type", py_getitem user_detail "LicenseType")
        ]
      else
        error_message <- py_path response_dict ["Docsvault"; "Response"; "Message"] ;;
        msg <- py_add_str "Could not get user details. " error_message ;;
        raise (ValueError msg))
  else
    Done (raise (RequestException
      ("Could not get user details. Status code: " ++ py_str_int (status_code response)))).

Definition docsvault_get_user_details_by_id (token_id user_id api_url : string)
  : IO PyVal :=
  let action := "UserDetails/GetUserDetailsByID" in
  let params := [("TokenID", token_id); ("UserID", user_id)] in
  let full_api_url := rstrip api_url "/" ++ "/DocsvaultAPI/" ++ action in
  response <~ requests_get full_api_url params ;;
  if status_code response =? 200 then
    let response_xml := content response in
    response_dict <~ xmltodict_parse response_xml ;;
    Done (
      sc <- py_path response_dict ["Docsvault"; "Response"; "StatusCode"] ;;
      if py_eq_str sc "0" then
        user_detail <- py_path response_dict ["Docsvault"; "Result"; "UserDetail"] ;;
        py_dict [
          ("user_id", py_getitem user_detail "UserID");
          ("user_name", py_getitem user_detail "UserName");
          ("full_name", py_getitem user_detail "UserFullName");
          ("description", py_getitem user_detail "UserDescription");
          ("email", py_getitem user_detail "UserEmail");
          ("dv_authentication", py_getitem user_detail "DVAuthentication");
          ("web_access", py_getitem user_detail "WebAccess");
          ("license_type", py_getitem user_detail "LicenseType")
        ]
      else
        error_message <- py_path response_dict ["Docsvault"; "Response"; "Message"] ;;
        msg <- py_add_str "Could not get user details. " error_message ;;
        raise (ValueError msg))
  else
    Done (raise (RequestException
      ("Could not get user details. Status code: " ++ py_str_int (status_code response)))).

Definition docsvault_get_user_details_by_email (token_id email api_url : string)
  : IO PyVal :=
  let action := "UserDetails/GetUserDetailsByEmailID" in
  let params := [("TokenID", token_id); ("EmailID", email)] in
  let full_api_url := rstrip api_url "/" ++ "/DocsvaultAPI/" ++ action in
  response <~ requests_get full_api_url params ;;
  if status_code response =? 200 then
    let response_xml := content response in
    response_dict <~ xmltodict_parse response_xml ;;
    Done (
      sc <- py_path response_dict ["Docsvault"; "Response"; "StatusCode"] ;;
      if py_eq_str sc "0" then
        user_detail <- py_path response_dict ["Docsvault"; "Result"; "UserDetail"] ;;
        py_dict [
          ("user_id", py_getitem user_detail "UserID");
          ("user_name", py_getitem user_detail "UserName");
          ("full_name", py_getitem user_detail "UserFullName");
          ("description", py_getitem user_detail "UserDescription");
          ("email", py_getitem user_detail "UserEmail");
          ("dv_authentication", py_getitem user_detail "DVAuthentication");
          ("web_access", py_getitem user_detail "WebAccess");
          ("license_type", py_getitem user_detail "LicenseType")
        ]
      else
        error_message <- py_path response_dict ["Docsvault"; "Response"; "Message"] ;;
        msg <- py_add_str "Could not get user details. " error_message ;;
        raise (ValueError msg))
  else
    Done (raise (RequestException
      ("Could not get user details. Status code: " ++ py_str_int (status_code response)))).

Definition docsvault_get_readonly_users (token_id api_url : string) : IO PyVal :=
  let action := "UserDetails/GetReadonlyUsers" in
  let params := [("TokenID", token_id)] in
  let full_api_url := rstrip api_url "/" ++ "/DocsvaultAPI/" ++ action in
  response <~ requests_get full_api_url params ;;
  if status_code response =? 200 then
    let response_xml := content response in
    response_dict <~ xmltodict_parse response_xml ;;
    Done (
      sc <- py_path response_dict ["Docsvault"; "Response"; "StatusCode"] ;;
      if py_eq_str sc "0" then
        user_details <- py_path response_dict ["Docsvault"; "Result"; "UserDetail"] ;;
        let user_details :=
          if py_is_dict user_details then PList [user_details] else user_details in
        py_listcomp (fun user_detail =>
          py_dict [
            ("user_id", py_getitem user_detail "UserID");
            ("user_name", py_getitem user_detail "UserName");
            ("full_name", py_getitem user_detail "UserFullName");
            ("description", py_getitem user_detail "UserDescription");
            ("email", py_getitem user_detail "UserEmail");
            ("dv_authentication", py_getitem user_detail "DVAuthentication");
            ("web_access", py_getitem user_detail "WebAccess");
            ("license_type", py_getitem user_detail "LicenseType")
          ]) user_details
      else
        error_message <- py_path response_dict ["Docsvault"; "Response"; "Message"] ;;
        msg <- py_add_str "Could not get readonly users. " error_message ;;
        raise (ValueError msg))
  else
    Done (raise (RequestException
      ("Could not get readonly users. Status code: " ++ py_str_int (status_code response)))).

Definition docsvault_get_webaccess_users (token_id api_url : string) : IO PyVal :=
  let action := "UserDetails/GetWebAccessUsers" in
  let params := [("TokenID", token_id)] in
  let full_api_url := rstrip api_url "/" ++ "/DocsvaultAPI/" ++ action in
  response <~ requests_get full_api_url params ;;
  if status_code response =? 200 then
    let response_xml := content response in
    response_dict <~ xmltodict_parse response_xml ;;
    Done (
      sc <- py_path response_dict ["Docsvault"; "Response"; "StatusCode"] ;;
      if py_eq_str sc "0" then
        user_details <- py_path response_dict ["Docsvault"; "Result"; "UserDetail"] ;;
        let user_details :=
          if py_is_dict user_details then PList [user_details] else user_details in
        py_listcomp (fun user_detail =>
          py_dict [
            ("user_id", py_getitem user_detail "UserID");
            ("user_name", py_getitem user_detail "UserName");
            ("full_name", py_getitem user_detail "UserFullName");
            ("description", py_getitem user_detail "UserDescription");
            ("email", py_getitem user_detail "UserEmail");
            ("dv_authentication", py_getitem user_detail "DVAuthentication");
            ("web_access", py_getitem user_detail "WebAccess");
            ("license_type", py_getitem user_detail "LicenseType")
          ]) user_details
      else
        error_message <- py_path response_dict ["Docsvault"; "Response"; "Message"] ;;
        msg <- py_add_str "Could not get Web Access users. " error_message ;;
        raise (ValueError msg))
  else
    Done (raise (RequestException
      ("Could not get Web Access users. Status code: " ++ py_str_int (status_code response)))).

(** The first of the module's two definitions of [docsvault_get_user_groups];
    the later definition of the same name replaces it when the module is
    loaded. *)
Definition docsvault_get_user_groups_first (token_id user_id api_url : string)
  : IO PyVal :=
  let action := "UserDetails/GetUserGroup" in
  let params := [("TokenID", token_id); ("UserID", user_id)] in
  let full_api_url := rstrip api_url "/" ++ "/DocsvaultAPI/" ++ action in
  response <~ requests_get full_api_url params ;;
  if status_code response =? 200 then
    let response_xml := content response in
    response_dict <~ xmltodict_parse response_xml ;;
    Done (
      sc <- py_path response_dict ["Docsvault"; "Response"; "StatusCode"] ;;
      if py_eq_str sc "0" then
        group_details <- py_path response_dict ["Docsvault"; "Result"; "Group"] ;;
        let group_details :=
          if py_is_dict group_details then PList [group_details] else group_details in
        py_listcomp (fun group_detail =>
          py_dict [
            ("group_name", py_getitem group_detail "GroupName");
            ("group_id", py_getitem group_detail "GroupID");
            ("description", py_getitem group_detail "Description")
          ]) group_details
      else
        error_message <- py_path response_dict ["Docsvault"; "Response"; "Message"] ;;
        msg <- py_add_str "Could not get user groups. " error_message ;;
        raise (ValueError msg))
  else
    Done (raise (RequestException
      ("Could not get user groups. Status code: " ++ py_str_int (status_code response)))).

Definition docsvault_get_connected_users (token_id api_url : string) : IO PyVal :=
  let action := "UserDetails/GetConnectedUsers" in
  let params := [("TokenID", token_id)] in
  let full_api_url := rstrip api_url "/" ++ "/DocsvaultAPI/" ++ action in
  response <~ requests_get full_api_url params ;;
  if status_code response =? 200 then
    let response_xml := content response in
    response_dict <~ xmltodict_parse response_xml ;;
    Done (
      sc <- py_path response_dict ["Docsvault"; "Response"; "StatusCode"] ;;
      if py_eq_str sc "0" then
        user_details <- py_path response_dict ["Docsvault"; "Result"; "UserDetail"] ;;
        let user_details :=
          if py_is_dict user_details then PList [user_details] else user_details in
        py_listcomp (fun user_detail =>
          py_dict [
            ("user_id", py_getitem user_detail "UserID");
            ("user_name", py_getitem user_detail "UserName");
            ("full_name", py_getitem user_detail "UserFullName");
            ("description", py_getitem user_detail "UserDescription");
            ("email", py_getitem user_detail "UserEmail");
            ("dv_authentication", py_getitem user_detail "DVAuthentication");
            ("web_access", py_getitem user_detail "WebAccess");
            ("login_from", py_getitem user_detail "LoginFrom");
            ("license_type", py_getitem user_detail "LicenseType")
          ]) user_details
      else
        error_message <- py_path response_dict ["Docsvault"; "Response"; "Message"] ;;
        msg <- py_add_str "Could not get connected users. " error_message ;;
        raise (ValueError msg))
  else
    Done (raise (RequestException
      ("Could not get connected users. Status code: " ++ py_str_int (status_code response)))).

(** The second definition, the one callers of the module reach. *)
Definition docsvault_get_user_groups (token_id api_url user_id : string) : IO PyVal :=
  let action := "UserDetails/GetUserGroup" in
  let params := [("TokenID", token_id); ("UserID", user_id)] in
  let full_api_url := rstrip api_url "/" ++ "/DocsvaultAPI/" ++ action in
  response <~ requests_get full_api_url params ;;
  if status_code response =? 200 then
    let response_xml := content response in
    response_dict <~ xmltodict_parse response_xml ;;
    Done (
      sc <- py_path response_dict ["Docsvault"; "Response"; "StatusCode"] ;;
      if py_eq_str sc "0" then
        group_details <- py_path response_dict ["Docsvault"; "Result"; "Group"] ;;
        let group_details :=
          if py_is_dict group_details then PList [group_details] else group_details in
        py_listcomp (fun group_detail =>
          py_dict [
            ("group_name", py_getitem group_detail "GroupName");
            ("group_id", py_getitem group_detail "GroupID");
            ("description", py_getitem group_detail "Description")
          ]) group_details
      else
        error_message <- py_path response_dict ["Docsvault"; "Response"; "Message"] ;;
        msg <- py_add_str "Could not get user groups. " error_message ;;
        raise (ValueError msg))
  else
    Done (raise (RequestException
      ("Could not get user groups. Status code: " ++ py_str_int (status_code response)))).

Definition docsvault_get_file_details (token_id api_url file_id : string) : IO PyVal :=
  let action := "FileDetails/GetFileDetailsByID" in
  let params := [("TokenID", token_id); ("FileID", file_id)] in
  let full_api_url := rstrip api_url "/" ++ "/DocsvaultAPI/" ++ action in
  response <~ requests_get full_api_url params ;;
  if status_code response =? 200 then
    let response_xml := content response in
    response_dict <~ xmltodict_parse response_xml ;;
    Done (
      sc <- py_path response_dict ["Docsvault"; "Response"; "StatusCode"] ;;
      if py_eq_str sc "0" then
        file_details <- py_path response_dict ["Docsvault"; "Result"; "FileDetail"] ;;
        py_dict [
          ("file_id", py_getitem file_details "FileID");
          ("parent_id", py_getitem file_details "ParentID");
          ("file_name", py_getitem file_details "FileName");
          ("description", py_getitem file_details "Description");
          ("flag_name", py_getitem file_details "FlagName");
          ("file_size", py_getitem file_details "FileSize");
          ("doc_type", py_getitem file_details "DocType");
          ("pages", py_getitem file_details "Pages");
          ("version", py_getitem file_details "Version");
          ("version_note", py_getitem file_details "VersionNote");
          ("version_owner", py_getitem file_details "VersionOwner");
          ("version_owner_name", py_getitem file_details "VersionOwnerName");
          ("modified_date", py_getitem file_details "ModifiedDate");
          ("created_date", py_getitem file_details "CreatedDate");
          ("accessed_date", py_getitem file_details "AccessedDate");
          ("checked_out",
             (c <- py_get file_details "CheckedOut" PNone ;; ret (PBool (py_eq_str c "true"))));
          ("checked_out_by", py_get file_details "CheckedOutBy" PNone);
          ("checked_out_by_name", py_get file_details "CheckedOutByName" PNone);
          ("owner_id", py_getitem file_details "OwnerID");
          ("owner_name", py_getitem file_details "OwnerName");
          ("location", py_getitem file_details "Location");
          ("doc_notes", py_getitem file_details "DocNotes");
          ("profile_id", py_getitem file_details "ProfileID");
          ("profile_name", py_getitem file_details "ProfileName");
          ("indexes",
             (indexes <- py_path file_details ["ListOfIndexes"; "Indexes"] ;;
              py_listcomp (fun index =>
                py_dict [
                  ("index", py_getitem index "Index");
                  ("index_value", py_getitem index "IndexValue")
                ]) indexes))
        ]
      else
        error_message <- py_path response_dict ["Docsvault"; "Response"; "Message"] ;;
        msg <- py_add_str "Could not get file details. " error_message ;;
        raise (ValueError msg))
  else
    Done (raise (RequestException
      ("Could not get file details. Status code: " ++ py_str_int (status_code response)))).

Definition docsvault_get_file_details_by_location (token_id api_url location : string)
  : IO PyVal :=
  let action := "FileDetails/GetFileDetailsByLocation" in
  let params := [("TokenID", token_id); ("Location", location)] in
  let full_api_url := rstrip api_url "/" ++ "/DocsvaultAPI/" ++ action in
  response <~ requests_get full_api_url params ;;
  if status_code response =? 200 then
    let response_xml := content response in
    response_dict <~ xmltodict_parse response_xml ;;
    Done (
      sc <- py_path response_dict ["Docsvault"; "Response"; "StatusCode"] ;;
      if py_eq_str sc "0" then
        file_detail <- py_path response_dict ["Docsvault"; "Result"; "FileDetail"] ;;
        py_dict [
          ("file_id", py_getitem file_detail "FileID");
          ("parent_id", py_getitem file_detail "ParentID");
          ("file_name", py_getitem file_detail "FileName");
          ("description", py_getitem file_detail "Description");
          ("flag_name", py_getitem file_detail "FlagName");
          ("file_size", py_getitem file_detail "FileSize");
          ("doc_type", py_getitem file_detail "DocType");
          ("pages", py_getitem file_detail "Pages");
          ("version", py_getitem file_detail "Version");
          ("version_note", py_getitem file_detail "VersionNote");
          ("version_owner", py_getitem file_detail "VersionOwner");
          ("version_owner_name", py_getitem file_detail "VersionOwnerName");
          ("modified_date", py_getitem file_detail "ModifiedDate");
          ("created_date", py_getitem file_detail "CreatedDate");
          ("accessed_date", py_getitem file_detail "AccessedDate");
          ("checked_out", py_getitem file_detail "CheckedOut");
          ("checked_out_by", py_getitem file_detail "CheckedOutBy");
          ("checked_out_by_name", py_getitem file_detail "CheckedOutByName");
          ("owner_id", py_getitem file_detail "OwnerID");
          ("owner_name", py_getitem file_detail "OwnerName");
          ("location", py_getitem file_detail "Location");
          ("doc_notes", py_getitem file_detail "DocNotes");
          ("profile_id", py_getitem file_detail "ProfileID");
          ("profile_name", py_getitem file_detail "ProfileName");
          ("list_of_indexes",
             (l <- py_get file_detail "ListOfIndexes" (PDict []) ;;
              py_get l "Indexes" (PList [])))
        ]
      else
        error_message <- py_path response_dict ["Docsvault"; "Response"; "Message"] ;;
        msg <- py_add_str "Could not get file details. " error_message ;;
        raise (ValueError msg))
  else
    Done (raise (RequestException
      ("Could not get file details. Status code: " ++ py_str_int (status_code response)))).

Definition docsvault_get_file_profile (token_id api_url file_id : string) : IO PyVal :=
  let action := "FileDetails/GetFileProfile" in
  let params := [("TokenID", token_id); ("FileID", file_id)] in
  let full_api_url := rstrip api_url "/" ++ "/DocsvaultAPI/" ++ action in
  response <~ requests_get full_api_url params ;;
  if status_code response =? 200 then
    let response_xml := content response in
    response_dict <~ xmltodict_parse response_xml ;;
    Done (
      sc <- py_path response_dict ["Docsvault"; "Response"; "StatusCode"] ;;
      if py_eq_str sc "0" then
        file_detail <- py_path response_dict ["Docsvault"; "Result"; "FileDetail"] ;;
        l <- py_get file_detail "ListOfIndexes" (PDict []) ;;
        indexes <- py_get l "Indexes" (PList []) ;;
        index_values <-
          py_dictcomp (fun index => py_getitem index "Index")
                      (fun index => py_getitem index "IndexValue") indexes ;;
        py_dict [
          ("flag_name", py_getitem file_detail "FlagName");
          ("doc_notes", py_getitem file_detail "DocNotes");
          ("profile_name", py_getitem file_detail "ProfileName");
          ("index_values", ret index_values)
        ]
      else
        error_message <- py_path response_dict ["Docsvault"; "Response"; "Message"] ;;
        msg <- py_add_str "Could not get file profile. " error_message ;;
        raise (ValueError msg))
  else
    Done (raise (RequestException
      ("Could not get file profile. Status code: " ++ py_str_int (status_code response)))).

Definition docsvault_get_checked_out_files_by_user (token_id api_url user_id : string)
  : IO PyVal :=
  let action := "FileDetails/GetCheckedoutFilesByUser" in
  let params := [("TokenID", token_id); ("UserID", user_id)] in
  let full_api_url := rstrip api_url "/" ++ "/DocsvaultAPI/" ++ action in
  response <~ requests_get full_api_url params ;;
  if status_code response =? 200 then
    let response_xml := content response in
    response_dict <~ xmltodict_parse response_xml ;;
    Done (
      sc <- py_path response_dict ["Docsvault"; "Response"; "StatusCode"] ;;
      if py_eq_str sc "0" then
        result <- py_path response_dict ["Docsvault"; "Result"] ;;
        file_details <- py_get result "FileDetail" (PList []) ;;
        let file_details :=
          if py_is_dict file_details then PList [file_details] else file_details in
        py_dict [
          ("checked_out_files",
             py_listcomp (fun file_detail =>
               py_dict [
                 ("file_id", py_getitem file_detail "FileID");
                 ("parent_id", py_getitem file_detail "ParentID");
                 ("file_name", py_getitem file_detail "FileName");
                 ("description", py_getitem file_detail "Description");
                 ("flag_name", py_getitem file_detail "FlagName");
                 ("file_size", py_getitem file_detail "FileSize");
                 ("doc_type", py_getitem file_detail "DocType");
                 ("pages", py_getitem file_detail "Pages");
                 ("version", py_getitem file_detail "Version");
                 ("version_note", py_getitem file_detail "VersionNote");
                 ("version_owner", py_getitem file_detail "VersionOwner");
                 ("version_owner_name", py_getitem file_detail "VersionOwnerName");
                 ("modified_date", py_getitem file_detail "ModifiedDate");
                 ("created_date", py_getitem file_detail "CreatedDate");
                 ("accessed_date", py_getitem file_detail "AccessedDate");
                 ("checked_out",
                    (c <- py_get file_detail "CheckedOut" PNone ;;
                     ret (PBool (py_eq_str c "true"))));
                 ("checked_out_by", py_get file_detail "CheckedOutBy" (PStr ""));
                 ("checked_out_by_name", py_get file_detail "CheckedOutByName" (PStr ""));
                 ("owner_id", py_getitem file_detail "OwnerID");
                 ("owner_name", py_getitem file_detail "OwnerName");
                 ("location", py_getitem file_detail "Location")
               ]) file_details)
        ]
      else
        error_message <- py_path response_dict ["Docsvault"; "Response"; "Message"] ;;
        msg <- py_add_str "Could not get checked out files. " error_message ;;
        raise (ValueError msg))
  else
    Done (raise (RequestException
      ("Could not get checked out files. Status code: " ++ py_str_int (status_code response)))).

Definition docsvault_get_file_versions (token_id api_url file_id : string) : IO PyVal :=
  let action := "FileDetails/GetFileVersion" in
  let params := [("TokenID", token_id); ("FileID", file_id)] in
  let full_api_url := rstrip api_url "/" ++ "/DocsvaultAPI/" ++ action in
  response <~ requests_get full_api_url params ;;
  if status_code response =? 200 then
    let response_xml := content response in
    response_dict <~ xmltodict_parse response_xml ;;
    Done (
      sc <- py_path response_dict ["Docsvault"; "Response"; "StatusCode"] ;;
      if py_eq_str sc "0" then
        result <- py_path response_dict ["Docsvault"; "Result"] ;;
        file_details <- py_get result "FileDetail" (PList []) ;;
        let file_details :=
          if py_is_dict file_details then PList [file_details] else file_details in
        py_dict [
          ("file_versions",
             py_listcomp (fun file_detail =>
               py_dict [
                 ("file_size", py_getitem file_detail "FileSize");
                 ("version", py_getitem file_detail "Version");
                 ("version_note", py_getitem file_detail "VersionNote");
                 ("version_owner", py_getitem file_detail "VersionOwner");
                 ("version_owner_name", py_getitem file_detail "VersionOwnerName");
                 ("created_date", py_getitem file_detail "CreatedDate");
                 ("version_notes", py_getitem file_detail "VersionNotes")
               ]) file_details)
        ]
      else
        error_message <- py_path response_dict ["Docsvault"; "Response"; "Message"] ;;
        msg <- py_add_str "Could not get file versions. " error_message ;;
        raise (ValueError msg))
  else
    Done (raise (RequestException
      ("Could not get file versions. Status code: " ++ py_str_int (status_code response)))).

Definition docsvault_get_file_relations (token_id api_url file_id : string) : IO PyVal :=
  let action := "FileDetails/GetFileRelations" in
  let params := [("TokenID", token_id); ("FileID", file_id)] in
  let full_api_url := rstrip api_url "/" ++ "/DocsvaultAPI/" ++ action in
  response <~ requests_get full_api_url params ;;
  if status_code response =? 200 then
    let response_xml := content response in
    response_dict <~ xmltodict_parse response_xml ;;
    Done (
      sc <- py_path response_dict ["Docsvault"; "Response"; "StatusCode"] ;;
      if py_eq_str sc "0" then
        result <- py_path response_dict ["Docsvault"; "Result"] ;;
        file_details <- py_get result "FileDetail" (PList []) ;;
        let file_details :=
          if py_is_dict file_details then PList [file_details] else file_details in
        py_dict [
          ("related_documents",
             py_listcomp (fun file_detail =>
               py_dict [
                 ("file_id", py_getitem file_detail "FileID");
                 ("description", py_getitem file_detail "Description");
                 ("location", py_getitem file_detail "Location")
               ]) file_details)
        ]
      else
        error_message <- py_path response_dict ["Docsvault"; "Response"; "Message"] ;;
        msg <- py_add_str "Could not get related documents. " error_message ;;
        raise (ValueError msg))
  else
    Done (raise (RequestException
      ("Could not get related documents. Status code: " ++ py_str_int (status_code response)))).

Definition docsvault_get_folder_details_by_id (token_id api_url folder_id : string)
  : IO PyVal :=
  let action := "FolderDetails/GetFolderDetailsByID" in
  let params := [("TokenID", token_id); ("FolderID", folder_id)] in
  let full_api_url := rstrip api_url "/" ++ "/DocsvaultAPI/" ++ action in
  response <~ requests_get full_api_url params ;;
  if status_code response =? 200 then
    let response_xml := content response in
    response_dict <~ xmltodict_parse response_xml ;;
    Done (
      sc <- py_path response_dict ["Docsvault"; "Response"; "StatusCode"] ;;
      if py_eq_str sc "0" then
        result <- py_path response_dict ["Docsvault"; "Result"] ;;
        folder_detail <- py_get result "FolderDetail" (PDict []) ;;
        py_dict [
          ("folder_id", py_get folder_detail "FolderID" PNone);
          ("parent_id", py_get folder_detail "ParentID" PNone);
          ("folder_name", py_get folder_detail "FolderName" PNone);
          ("description", py_get folder_detail "Description" PNone);
          ("flag_name", py_get folder_detail "FlagName" PNone);
          ("has_child", py_get folder_detail "HasChild" PNone);
          ("modified_date", py_get folder_detail "ModifiedDate" PNone);
          ("created_date", py_get folder_detail "CreatedDate" PNone);
          ("accessed_date", py_get folder_detail "AccessedDate" PNone);
          ("checked_out", py_get folder_detail "CheckedOut" PNone);
          ("checked_out_by", py_get folder_detail "CheckedOutBy" PNone);
          ("checked_out_by_name", py_get folder_detail "CheckedOutByName" PNone);
          ("owner_id", py_get folder_detail "OwnerID" PNone);
          ("owner_name", py_get folder_detail "OwnerName" PNone);
          ("location", py_get folder_detail "Location" PNone);
          ("doc_notes", py_get folder_detail "DocNotes" PNone);
          ("profile_id", py_get folder_detail "ProfileID" PNone);
          ("profile_name", py_get folder_detail "ProfileName" PNone);
          ("list_of_indexes",
             (l <- py_get folder_detail "ListOfIndexes" (PDict []) ;;
              indexes <- py_get l "Indexes" (PList []) ;;
              py_listcomp (fun index =>
                py_dict [
                  ("index", py_get index "Index" PNone);
                  ("index_value", py_get index "IndexValue" PNone)
                ]) indexes))
        ]
      else
        error_message <- py_path response_dict ["Docsvault"; "Response"; "Message"] ;;
        msg <- py_add_str "Could not get folder details. " error_message ;;
        raise (ValueError msg))
  else
    Done (raise (RequestException
      ("Could not get folder details. Status code: " ++ py_str_int (status_code response)))).

Definition docsvault_get_folder_details_by_location (token_id api_url location : string)
  : IO PyVal :=
  let action := "FolderDetails/GetFolderDetailsByLocation" in
  let params := [("TokenID", token_id); ("Location", location)] in
  let full_api_url := rstrip api_url "/" ++ "/DocsvaultAPI/" ++ action in
  response <~ requests_get full_api_url params ;;
  if status_code response =? 200 then
    let response_xml := content response in
    response_dict <~ xmltodict_parse response_xml ;;
    Done (
      sc <- py_path response_dict ["Docsvault"; "Response"; "StatusCode"] ;;
      if py_eq_str sc "0" then
        result <- py_path response_dict ["Docsvault"; "Result"] ;;
        folder_detail <- py_get result "FolderDetail" (PDict []) ;;
        py_dict [
          ("folder_id", py_get folder_detail "FolderID" PNone);
          ("parent_id", py_get folder_detail "ParentID" PNone);
          ("folder_name", py_get folder_detail "FolderName" PNone);
          ("description", py_get folder_detail "Description" PNone);
          ("flag_name", py_get folder_detail "FlagName" PNone);
          ("has_child", py_get folder_detail "HasChild" PNone);
          ("modified_date", py_get folder_detail "ModifiedDate" PNone);
          ("created_date", py_get folder_detail "CreatedDate" PNone);
          ("accessed_date", py_get folder_detail "AccessedDate" PNone);
          ("checked_out", py_get folder_detail "CheckedOut" PNone);
          ("checked_out_by", py_get folder_detail "CheckedOutBy" PNone);
          ("checked_out_by_name", py_get folder_detail "CheckedOutByName" PNone);
          ("owner_id", py_get folder_detail "OwnerID" PNone);
          ("owner_name", py_get folder_detail "OwnerName" PNone);
          ("location", py_get folder_detail "Location" PNone);
          ("doc_notes", py_get folder_detail "DocNotes" PNone);
          ("profile_id", py_get folder_detail "ProfileID" PNone);
          ("profile_name", py_get folder_detail "ProfileName" PNone);
          ("list_of_indexes",
             (l <- py_get folder_detail "ListOfIndexes" (PDict []) ;;
              indexes <- py_get l "Indexes" (PList []) ;;
              py_listcomp (fun index =>
                py_dict [
                  ("index", py_get index "Index" PNone);
                  ("index_value", py_get index "IndexValue" PNone)
                ]) indexes))
        ]
      else
        error_message <- py_path response_dict ["Docsvault"; "Response"; "Message"] ;;
        msg <- py_add_str "Could not get folder details. " error_message ;;
        raise (ValueError msg))
  else
    Done (raise (RequestException
      ("Could not get folder details. Status code: " ++ py_str_int (status_code response)))).

Definition docsvault_get_folder_profile (token_id api_url folder_id : string) : IO PyVal :=
  let action := "FolderDetails/GetFolderProfile" in
  let params := [("TokenID", token_id); ("FolderID", folder_id)] in
  let full_api_url := rstrip api_url "/" ++ "/DocsvaultAPI/" ++ action in
  response <~ requests_get full_api_url params ;;
  if status_code response =? 200 then
    let response_xml := content response in
    response_dict <~ xmltodict_parse response_xml ;;
    Done (
      sc <- py_path response_dict ["Docsvault"; "Response"; "StatusCode"] ;;
      if py_eq_str sc "0" then
        result <- py_path response_dict ["Docsvault"; "Result"] ;;
        folder_detail <- py_get result "FolderDetail" (PDict []) ;;
        py_dict [
          ("flag_name", py_get folder_detail "FlagName" PNone);
          ("doc_notes", py_get folder_detail "DocNotes" PNone);
          ("profile_name", py_get folder_detail "ProfileName" PNone);
          ("list_of_indexes",
             (l <- py_get folder_detail "ListOfIndexes" (PDict []) ;;
              indexes <- py_get l "Indexes" (PList []) ;;
              py_listcomp (fun index =>
                py_dict [
                  ("index", py_get index "Index" PNone);
                  ("index_value", py_get index "IndexValue" PNone)
                ]) indexes))
        ]
      else
        error_message <- py_path response_dict ["Docsvault"; "Response"; "Message"] ;;
        msg <- py_add_str "Could not get folder profile. " error_message ;;
        raise (ValueError msg))
  else
    Done (raise (RequestException
      ("Could not get folder profile. Status code: " ++ py_str_int (status_code response)))).

Definition docsvault_get_folder_relations (token_id api_url folder_id : string)
  : IO PyVal :=
  let action := "FolderDetails/GetFolderRelations" in
  let params := [("TokenID", token_id); ("FolderID", folder_id)] in
  let full_api_url := rstrip api_url "/" ++ "/DocsvaultAPI/" ++ action in
  response <~ requests_get full_api_url params ;;
  if status_code response =? 200 then
    let response_xml := content response in
    response_dict <~ xmltodict_parse response_xml ;;
    Done (
      sc <- py_path response_dict ["Docsvault"; "Response"; "StatusCode"] ;;
      if py_eq_str sc "0" then
        result <- py_path response_dict ["Docsvault"; "Result"] ;;
        r <- py_get result "RelatedDocs" (PDict []) ;;
        related_docs <- py_get r "Doc" (PList []) ;;
        py_listcomp (fun doc =>
          py_dict [
            ("doc_id", py_get doc "DocID" PNone);
            ("doc_name", py_get doc "DocName" PNone);
            ("doc_type", py_get doc "DocType" PNone);
            ("version", py_get doc "Version" PNone);
            ("folder_id", py_get doc "FolderID" PNone);
            ("folder_name", py_get doc "FolderName" PNone);
            ("location", py_get doc "Location" PNone);
            ("modified_date", py_get doc "ModifiedDate" PNone);
            ("created_date", py_get doc "CreatedDate" PNone);
            ("accessed_date", py_get doc "AccessedDate" PNone);
            ("size", py_get doc "Size" PNone);
            ("extension", py_get doc "Extension" PNone);
            ("checksum", py_get doc "Checksum" PNone);
            ("pages", py_get doc "Pages" PNone);
            ("author", py_get doc "Author" PNone);
            ("title", py_get doc "Title" PNone);
            ("subject", py_get doc "Subject" PNone);
            ("keywords", py_get doc "Keywords" PNone);
            ("category", py_get doc "Category" PNone);
            ("status", py_get doc "Status" PNone);
            ("comment", py_get doc "Comment" PNone);
            ("owner_id", py_get doc "OwnerID" PNone);
            ("owner_name", py_get doc "OwnerName" PNone);
            ("file_path", py_get doc "FilePath" PNone);
            ("doc_notes", py_get doc "DocNotes" PNone);
            ("workflow_status", py_get doc "WorkflowStatus" PNone);
            ("web_access", py_get doc "WebAccess" PNone);
            ("task_id", py_get doc "TaskID" PNone)
          ]) related_docs
      else
        error_message <- py_path response_dict ["Docsvault"; "Response"; "Message"] ;;
        msg <- py_add_str "Could not get related documents. " error_message ;;
        raise (ValueError msg))
  else
    Done (raise (RequestException
      ("Could not get related documents. Status code: " ++ py_str_int (status_code response)))).

(** ** The module's interface

    A call names one of the routines a caller can reach, with its
    arguments in the routine's own order. *)
Inductive Call : Type :=
| Login (username password api_url : string)
| LoginPost (username password api_url : string)
| Logout (token_id username api_url : string)
| GetLoginUserID (token_id api_url : string)
| GetUserDetailsByName (token_id user_name api_url : string)
| GetUserDetailsByID (token_id user_id api_url : string)
| GetUserDetailsByEmail (token_id email api_url : string)
| GetReadonlyUsers (token_id api_url : string)
| GetWebAccessUsers (token_id api_url : string)
| GetConnectedUsers (token_id api_url : string)
| GetUserGroups (token_id api_url user_id : string)
| GetFileDetails (token_id api_url file_id : string)
| GetFileDetailsByLocation (token_id api_url location : string)
| GetFileProfile (token_id api_url file_id : string)
| GetCheckedOutFilesByUser (token_id api_url user_id : string)
| GetFileVersions (token_id api_url file_id : string)
| GetFileRelations (token_id api_url file_id : string)
| GetFolderDetailsByID (token_id api_url folder_id : string)
| GetFolderDetailsByLocation (token_id api_url location : string)
| GetFolderProfile (token_id api_url folder_id : string)
| GetFolderRelations (token_id api_url folder_id : string).

Definition exec (c : Call) : IO PyVal :=
  match c with
  | Login u p a => docsvault_login u p a
  | LoginPost u p a => docsvault_login_post u p a
  | Logout t u a => docsvault_logout t u a
  | GetLoginUserID t a => docsvault_get_login_user_id t a
  | GetUserDetailsByName t n a => docsvault_get_user_details_by_name t n a
  | GetUserDetailsByID t i a => docsvault_get_user_details_by_id t i a
  | GetUserDetailsByEmail t e a => docsvault_get_user_details_by_email t e a
  | GetReadonlyUsers t a => docsvault_get_readonly_users t a
  | GetWebAccessUsers t a => docsvault_get_webaccess_users t a
  | GetConnectedUsers t a => docsvault_get_connected_users t a
  | GetUserGroups t a u => docsvault_get_user_groups t a u
  | GetFileDetails t a f => docsvault_get_file_details t a f
  | GetFileDetailsByLocation t a l => docsvault_get_file_details_by_location t a l
  | GetFileProfile t a f => docsvault_get_file_profile t a f
  | GetCheckedOutFilesByUser t a u => docsvault_get_checked_out_files_by_user t a u
  | GetFileVersions t a f => docsvault_get_file_versions t a f
  | GetFileRelations t a f => docsvault_get_file_relations t a f
  | GetFolderDetailsByID t a f => docsvault_get_folder_details_by_id t a f
  | GetFolderDetailsByLocation t a l => docsvault_get_folder_details_by_location t a l
  | GetFolderProfile t a f => docsvault_get_folder_profile t a f
  | GetFolderRelations t a f => docsvault_get_folder_relations t a f
  end.

(** The base URL a call was given. *)
Definition base_url (c : Call) : string :=
  match c with
  | Login _ _ a | LoginPost _ _ a | Logout _ _ a | GetLoginUserID _ a
  | GetUserDetailsByName _ _ a | GetUserDetailsByID _ _ a
  | GetUserDetailsByEmail _ _ a | GetReadonlyUsers _ a | GetWebAccessUsers _ a
  | GetConnectedUsers _ a | GetUserGroups _ a _ | GetFileDetails _ a _
  | GetFileDetailsByLocation _ a _ | GetFileProfile _ a _
  | GetCheckedOutFilesByUser _ a _ | GetFileVersions _ a _
  | GetFileRelations _ a _ | GetFolderDetailsByID _ a _
  | GetFolderDetailsByLocation _ a _ | GetFolderProfile _ a _
  | GetFolderRelations _ a _ => a
  end.

(** The [action] constant of each routine. *)
Definition action (c : Call) : string :=
  match c with
  | Login _ _ _ => "Login"
  | LoginPost _ _ _ => "LoginPost"
  | Logout _ _ _ => "Logout"
  | GetLoginUserID _ _ => "GetLoginUserID"
  | GetUserDetailsByName _ _ _ => "UserDetails/GetUserDetailsByName"
  | GetUserDetailsByID _ _ _ => "UserDetails/GetUserDetailsByID"
  | GetUserDetailsByEmail _ _ _ => "UserDetails/GetUserDetailsByEmailID"
  | GetReadonlyUsers _ _ => "UserDetails/GetReadonlyUsers"
  | GetWebAccessUsers _ _ => "UserDetails/GetWebAccessUsers"
  | GetConnectedUsers _ _ => "UserDetails/GetConnectedUsers"
  | GetUserGroups _ _ _ => "UserDetails/GetUserGroup"
  | GetFileDetails _ _ _ => "FileDetails/GetFileDetailsByID"
  | GetFileDetailsByLocation _ _ _ => "FileDetails/GetFileDetailsByLocation"
  | GetFileProfile _ _ _ => "FileDetails/GetFileProfile"
  | GetCheckedOutFilesByUser _ _ _ => "FileDetails/GetCheckedoutFilesByUser"
  | GetFileVersions _ _ _ => "FileDetails/GetFileVersion"
  | GetFileRelations _ _ _ => "FileDetails/GetFileRelations"
  | GetFolderDetailsByID _ _ _ => "FolderDetails/GetFolderDetailsByID"
  | GetFolderDetailsByLocation _ _ _ => "FolderDetails/GetFolderDetailsByLocation"
  | GetFolderProfile _ _ _ => "FolderDetails/GetFolderProfile"
  | GetFolderRelations _ _ _ => "FolderDetails/GetFolderRelations"
  end.

(** The text each routine puts before the server's message in its
    [ValueError]. *)
Definition failure_label (c : Call) : string :=
  match c with
  | Login _ _ _ | LoginPost _ _ _ => "Login failed. "
  | Logout _ _ _ => "Logout failed. "
  | GetLoginUserID _ _ => "GetLoginUserID failed. "
  | GetUserDetailsByName _ _ _ | GetUserDetailsByID _ _ _
  | GetUserDetailsByEmail _ _ _ => "Could not get user details. "
  | GetReadonlyUsers _ _ => "Could not get readonly users. "
  | GetWebAccessUsers _ _ => "Could not get Web Access users. "
  | GetConnectedUsers _ _ => "Could not get connected users. "
  | GetUserGroups _ _ _ => "Could not get user groups. "
  | GetFileDetails _ _ _ | GetFileDetailsByLocation _ _ _ => "Could not get file details. "
  | GetFileProfile _ _ _ => "Could not get file profile. "
  | GetCheckedOutFilesByUser _ _ _ => "Could not get checked out files. "
  | GetFileVersions _ _ _ => "Could not get file versions. "
  | GetFileRelations _ _ _ | GetFolderRelations _ _ _ => "Could not get related documents. "
  | GetFolderDetailsByID _ _ _ | GetFolderDetailsByLocation _ _ _ =>
      "Could not get folder details. "
  | GetFolderProfile _ _ _ => "Could not get folder profile. "
  end.

(** The text each routine puts before the status code in its
    [RequestException]. *)
Definition transport_label (c : Call) : string :=
  match c with
  | Login _ _ _ | LoginPost _ _ _ => "Login request failed with status code: "
  | Logout _ _ _ => "Logout request failed with status code: "
  | GetLoginUserID _ _ => "GetLoginUserID request failed with status code: "
  | _ => failure_label c ++ "Status code: "
  end.

(** The request a call issues: the first interaction of its routine. *)
Definition request_of (c : Call) : Request :=
  match exec c with
  | Http req _ => req
  | _ => mkRequest GET "" []
  end.

(** The parts of an envelope the routines read. *)
Definition status_of (env : PyVal) : Exc PyVal :=
  py_path env ["Docsvault"; "Response"; "StatusCode"].

Definition message_of (env : PyVal) : Exc PyVal :=
  py_path env ["Docsvault"; "Response"; "Message"].

Definition result_of (env : PyVal) : Exc PyVal :=
  py_path env ["Docsvault"; "Result"].

(** An envelope as the wire format lays it out. *)
Definition envelope (sc msg res : PyVal) : PyVal :=
  PDict [(KStr "Docsvault",
          PDict [(KStr "Response", PDict [(KStr "StatusCode", sc); (KStr "Message", msg)]);
                 (KStr "Result", res)])].

(** A server that answers every request with [resp], and a parser that makes
    [parsed] of every body. *)
Definition mock (resp : Response) (parsed : Exc PyVal) : World :=
  mkWorld (fun _ => inr resp) (fun _ => parsed).

(** The outcome of a call once the server has answered with status 200 and
    the parser has made [env] of the body: what the routine computes from the
    envelope (see [run_on_envelope] below). *)
Definition on_envelope (c : Call) (env : PyVal) : Exc PyVal :=
  match exec c with
  | Http _ k =>
      match k (mkResponse 200 "") with
      | XmlParse _ k' =>
          match k' env with
          | Done r => r
          | _ => inl TypeError
          end
      | _ => inl TypeError
      end
  | _ => inl TypeError
  end.

(** The application error of the module is [ValueError]. *)
Definition is_value_error {A} (r : Exc A) : bool :=
  match r with
  | inl (ValueError _) => true
  | _ => false
  end.

(** The routines whose status test is [StatusCode == "1"]; all the others
    test [StatusCode == "0"]. *)
Definition tests_for_one (c : Call) : bool :=
  match c with
  | Login _ _ _ | LoginPost _ _ _ | Logout _ _ _ | GetLoginUserID _ _ => true
  | _ => false
  end.

(** The three routines the text calls the login operations. *)
Definition login_operation (c : Call) : bool :=
  match c with
  | Login _ _ _ | LoginPost _ _ _ | Logout _ _ _ => true
  | _ => false
  end.

(** [v.get(k)] when [v] is a dictionary. *)
Definition field (v : PyVal) (k : string) : PyVal :=
  match py_get v k PNone with
  | inr x => x
  | inl _ => PNone
  end.

Definition has_keys (v : PyVal) (ks : list string) : bool :=
  forallb (fun k => match py_getitem v k with inr _ => true | inl _ => false end) ks.

(** Result key and source field of the entries that both file-detail
    wrappers read by subscript. *)
Definition file_detail_fields : list (string * string) :=
  [("file_id", "FileID"); ("parent_id", "ParentID"); ("file_name", "FileName");
   ("description", "Description"); ("flag_name", "FlagName");
   ("file_size", "FileSize"); ("doc_type", "DocType"); ("pages", "Pages");
   ("version", "Version"); ("version_note", "VersionNote");
   ("version_owner", "VersionOwner"); ("version_owner_name", "VersionOwnerName");
   ("modified_date", "ModifiedDate"); ("created_date", "CreatedDate");
   ("accessed_date", "AccessedDate"); ("owner_id", "OwnerID");
   ("owner_name", "OwnerName"); ("location", "Location");
   ("doc_notes", "DocNotes"); ("profile_id", "ProfileID");
   ("profile_name", "ProfileName")].

Definition check_out_fields : list (string * string) :=
  [("checked_out", "CheckedOut"); ("checked_out_by", "CheckedOutBy");
   ("checked_out_by_name", "CheckedOutByName")].

Definition user_detail_fields : list (string * string) :=
  [("user_id", "UserID"); ("user_name", "UserName"); ("full_name", "UserFullName");
   ("description", "UserDescription"); ("email", "UserEmail");
   ("dv_authentication", "DVAuthentication"); ("web_access", "WebAccess");
   ("license_type", "LicenseType")].

(** The record a wrapper makes of a node: each result key with the node's
    value for the source field. *)
Definition projected (fields : list (string * string)) (node : PyVal) : PyVal :=
  PDict (map (fun os => (KStr (fst os), field node (snd os))) fields).

Definition index_entry (ix : PyVal) : PyVal :=
  projected [("index", "Index"); ("index_value", "IndexValue")] ix.

(** Test data: a complete FileDetail node around a given ListOfIndexes. *)
Definition sample_file_detail (check_out list_of_indexes : list (PyKey * PyVal)) : PyVal :=
  PDict ([(KStr "FileID", PStr "12"); (KStr "ParentID", PStr "3");
          (KStr "FileName", PStr "a.pdf"); (KStr "Description", PNone);
          (KStr "FlagName", PNone); (KStr "FileSize", PStr "2048");
          (KStr "DocType", PStr "pdf"); (KStr "Pages", PStr "2");
          (KStr "Version", PStr "1"); (KStr "VersionNote", PNone);
          (KStr "VersionOwner", PStr "5"); (KStr "VersionOwnerName", PStr "ann");
          (KStr "ModifiedDate", PStr "2023-01-02"); (KStr "CreatedDate", PStr "2023-01-01");
          (KStr "AccessedDate", PStr "2023-01-03")]
         ++ check_out ++
         [(KStr "OwnerID", PStr "5"); (KStr "OwnerName", PStr "ann");
          (KStr "Location", PStr "Cabinet\a.pdf"); (KStr "DocNotes", PNone);
          (KStr "ProfileID", PStr "1"); (KStr "ProfileName", PStr "Invoice")]
         ++ list_of_indexes).

Definition sample_index : PyVal :=
  PDict [(KStr "Index", PStr "Vendor"); (KStr "IndexValue", PStr "Acme")].

Definition sample_user : PyVal :=
  PDict [(KStr "UserID", PStr "5"); (KStr "UserName", PStr "ann");
         (KStr "UserFullName", PStr "Ann Lee"); (KStr "UserDescription", PNone);
         (KStr "UserEmail", PStr "ann@example.org"); (KStr "DVAuthentication", PStr "true");
         (KStr "WebAccess", PStr "true"); (KStr "LicenseType", PStr "ReadOnly")].

Definition ok_response : Response := mkResponse 200 "<Docsvault/>".

Definition sample_checked_out_file : PyVal :=
  sample_file_detail
    [(KStr "CheckedOut", PStr "true"); (KStr "CheckedOutBy", PStr "5");
     (KStr "CheckedOutByName", PStr "ann")]
    [(KStr "ListOfIndexes", PDict [(KStr "Indexes", PList [sample_index])])].

Definition sample_file_envelope (fd : PyVal) : PyVal :=
  envelope (PStr "0") (PStr "OK") (PDict [(KStr "FileDetail", fd)]).

(** ** Vocabulary for further properties *)

(** The same call against another base URL. *)
Definition with_base_url (c : Call) (url : string) : Call :=
  match c with
  | Login u p _ => Login u p url
  | LoginPost u p _ => LoginPost u p url
  | Logout t u _ => Logout t u url
  | GetLoginUserID t _ => GetLoginUserID t url
  | GetUserDetailsByName t n _ => GetUserDetailsByName t n url
  | GetUserDetailsByID t i _ => GetUserDetailsByID t i url
  | GetUserDetailsByEmail t e _ => GetUserDetailsByEmail t e url
  | GetReadonlyUsers t _ => GetReadonlyUsers t url
  | GetWebAccessUsers t _ => GetWebAccessUsers t url
  | GetConnectedUsers t _ => GetConnectedUsers t url
  | GetUserGroups t _ u => GetUserGroups t url u
  | GetFileDetails t _ f => GetFileDetails t url f
  | GetFileDetailsByLocation t _ l => GetFileDetailsByLocation t url l
  | GetFileProfile t _ f => GetFileProfile t url f
  | GetCheckedOutFilesByUser t _ u => GetCheckedOutFilesByUser t url u
  | GetFileVersions t _ f => GetFileVersions t url f
  | GetFileRelations t _ f => GetFileRelations t url f
  | GetFolderDetailsByID t _ f => GetFolderDetailsByID t url f
  | GetFolderDetailsByLocation t _ l => GetFolderDetailsByLocation t url l
  | GetFolderProfile t _ f => GetFolderProfile t url f
  | GetFolderRelations t _ f => GetFolderRelations t url f
  end.

Fixpoint slashes (n : nat) : string :=
  match n with
  | O => ""
  | S n' => String "/" (slashes n')
  end.

(** The session token a call was given; the two logins have none. *)
Definition session_token (c : Call) : option string :=
  match c with
  | Login _ _ _ | LoginPost _ _ _ => None
  | Logout t _ _ | GetLoginUserID t _ | GetUserDetailsByName t _ _
  | GetUserDetailsByID t _ _ | GetUserDetailsByEmail t _ _ | GetReadonlyUsers t _
  | GetWebAccessUsers t _ | GetConnectedUsers t _ | GetUserGroups t _ _
  | GetFileDetails t _ _ | GetFileDetailsByLocation t _ _ | GetFileProfile t _ _
  | GetCheckedOutFilesByUser t _ _ | GetFileVersions t _ _ | GetFileRelations t _ _
  | GetFolderDetailsByID t _ _ | GetFolderDetailsByLocation t _ _
  | GetFolderProfile t _ _ | GetFolderRelations t _ _ => Some t
  end.

(** The outcomes a routine produces by itself from an envelope: a value,
    its [ValueError], or the error of a failed subscript, method call or
    concatenation. *)
Definition own_outcome {A} (r : Exc A) : bool :=
  match r with
  | inr _ => true
  | inl (ValueError _) | inl (KeyError _) | inl TypeError | inl AttributeError => true
  | inl _ => false
  end.

(** Whether the status [sc] sends a routine down its failure branch. *)
Definition status_fails (c : Call) (sc : PyVal) : bool :=
  if tests_for_one c then py_eq_str sc "1" else negb (py_eq_str sc "0").

(** The node that the routines with an [isinstance(..., dict)] test
    normalise, as each of them reaches it. *)
Definition list_node (c : Call) (env : PyVal) : option (Exc PyVal) :=
  match c with
  | GetReadonlyUsers _ _ | GetWebAccessUsers _ _ | GetConnectedUsers _ _ =>
      Some (py_path env ["Docsvault"; "Result"; "UserDetail"])
  | GetUserGroups _ _ _ => Some (py_path env ["Docsvault"; "Result"; "Group"])
  | GetCheckedOutFilesByUser _ _ _ | GetFileVersions _ _ _ | GetFileRelations _ _ _ =>
      Some (result <- py_path env ["Docsvault"; "Result"] ;;
            py_get result "FileDetail" (PList []))
  | _ => None
  end.

Definition folder_detail_fields : list (string * string) :=
  [("folder_id", "FolderID"); ("parent_id", "ParentID"); ("folder_name", "FolderName");
   ("description", "Description"); ("flag_name", "FlagName"); ("has_child", "HasChild");
   ("modified_date", "ModifiedDate"); ("created_date", "CreatedDate");
   ("accessed_date", "AccessedDate"); ("checked_out", "CheckedOut");
   ("checked_out_by", "CheckedOutBy"); ("checked_out_by_name", "CheckedOutByName");
   ("owner_id", "OwnerID"); ("owner_name", "OwnerName"); ("location", "Location");
   ("doc_notes", "DocNotes"); ("profile_id", "ProfileID");
   ("profile_name", "ProfileName")].

Definition profile_fields : list (string * string) :=
  [("flag_name", "FlagName"); ("doc_notes", "DocNotes"); ("profile_name", "ProfileName")].

Definition connected_user_fields : list (string * string) :=
  [("user_id", "UserID"); ("user_name", "UserName"); ("full_name", "UserFullName");
   ("description", "UserDescription"); ("email", "UserEmail");
   ("dv_authentication", "DVAuthentication"); ("web_access", "WebAccess");
   ("login_from", "LoginFrom"); ("license_type", "LicenseType")].

Definition group_fields : list (string * string) :=
  [("group_name", "GroupName"); ("group_id", "GroupID"); ("description", "Description")].

Definition version_fields : list (string * string) :=
  [("file_size", "FileSize"); ("version", "Version"); ("version_note", "VersionNote");
   ("version_owner", "VersionOwner"); ("version_owner_name", "VersionOwnerName");
   ("created_date", "CreatedDate"); ("version_notes", "VersionNotes")].

Definition relation_fields : list (string * string) :=
  [("file_id", "FileID"); ("description", "Description"); ("location", "Location")].

(** The fields of a checked-out file that are read by subscript. *)
Definition checked_out_required : list string :=
  ["FileID"; "ParentID"; "FileName"; "Description"; "FlagName"; "FileSize";
   "DocType"; "Pages"; "Version"; "VersionNote"; "VersionOwner";
   "VersionOwnerName"; "ModifiedDate"; "CreatedDate"; "AccessedDate";
   "OwnerID"; "OwnerName"; "Location"].

(** [v.get(k, "")] when [v] is a dictionary. *)
Definition field_or_empty (v : PyVal) (k : string) : PyVal :=
  match py_get v k (PStr "") with
  | inr x => x
  | inl _ => PStr ""
  end.

(** The record [docsvault_get_checked_out_files_by_user] makes of one
    FileDetail node. *)
Definition checked_out_record (fd : PyVal) : PyVal :=
  PDict [(KStr "file_id", field fd "FileID"); (KStr "parent_id", field fd "ParentID");
         (KStr "file_name", field fd "FileName");
         (KStr "description", field fd "Description");
         (KStr "flag_name", field fd "FlagName"); (KStr "file_size", field fd "FileSize");
         (KStr "doc_type", field fd "DocType"); (KStr "pages", field fd "Pages");
         (KStr "version", field fd "Version");
         (KStr "version_note", field fd "VersionNote");
         (KStr "version_owner", field fd "VersionOwner");
         (KStr "version_owner_name", field fd "VersionOwnerName");
         (KStr "modified_date", field fd "ModifiedDate");
         (KStr "created_date", field fd "CreatedDate");
         (KStr "accessed_date", field fd "AccessedDate");
         (KStr "checked_out", PBool (py_eq_str (field fd "CheckedOut") "true"));
         (KStr "checked_out_by", field_or_empty fd "CheckedOutBy");
         (KStr "checked_out_by_name", field_or_empty fd "CheckedOutByName");
         (KStr "owner_id", field fd "OwnerID"); (KStr "owner_name", field fd "OwnerName");
         (KStr "location", field fd "Location")].




(** The display [{o1: node[s1], ..., on: node[sn]}] for a table of result keys
    and source fields. *)
Definition subscript_entries (fields : list (string * string)) (node : PyVal)
  : list (string * Exc PyVal) :=
  map (fun os => (fst os, py_getitem node (snd os))) fields.

(** The routines that return a token or an id read from the envelope. *)
Definition returns_token (c : Call) : bool :=
  match c with
  | Login _ _ _ | LoginPost _ _ _ | GetLoginUserID _ _ => true
  | _ => false
  end.

(** The table whose records a list routine projects. *)
Definition record_fields (c : Call) : option (list (string * string)) :=
  match c with
  | GetReadonlyUsers _ _ | GetWebAccessUsers _ _ => Some user_detail_fields
  | GetConnectedUsers _ _ => Some connected_user_fields
  | GetUserGroups _ _ _ => Some group_fields
  | _ => None
  end.

(** The routines that return their list under a key of a dictionary, with
    that key and the table of their records. *)
Definition keyed_list (c : Call) : option (string * list (string * string)) :=
  match c with
  | GetFileVersions _ _ _ => Some ("file_versions", version_fields)
  | GetFileRelations _ _ _ => Some ("related_documents", relation_fields)
  | _ => None
  end.

Definition user_details_call (c : Call) : bool :=
  match c with
  | GetUserDetailsByName _ _ _ | GetUserDetailsByID _ _ _
  | GetUserDetailsByEmail _ _ _ => true
  | _ => false
  end.

Definition projected_items (fields : list (string * string)) (node : PyVal)
  : list (PyKey * PyVal) :=
  map (fun os => (KStr (fst os), field node (snd os))) fields.

(** The folder routines and the table of the scalar fields each returns. *)
Definition folder_fields (c : Call) : option (list (string * string)) :=
  match c with
  | GetFolderDetailsByID _ _ _ | GetFolderDetailsByLocation _ _ _ =>
      Some folder_detail_fields
  | GetFolderProfile _ _ _ => Some profile_fields
  | _ => None
  end.

(** [node.get("ListOfIndexes", {}).get("Indexes", [])]. *)
Definition indexes_of (node : PyVal) : Exc PyVal :=
  l <- py_get node "ListOfIndexes" (PDict []) ;; py_get l "Indexes" (PList []).


(** * Properties *)

(** ** The primitives on small inputs *)

Example rstrip_trailing : rstrip "http://host///" "/" = "http://host".
Proof. reflexivity. Qed.

Example rstrip_inner : rstrip "/a//b/" "/" = "/a//b".
Proof. reflexivity. Qed.

Example rstrip_all : rstrip "//" "/" = "".
Proof. reflexivity. Qed.

Example str_404 : py_str_int 404 = "404".
Proof. reflexivity. Qed.

Example str_negative : py_str_int (-7) = "-7".
Proof. reflexivity. Qed.

Example iterating_a_record_gives_its_keys :
  py_iter sample_index = inr [PStr "Index"; PStr "IndexValue"].
Proof. reflexivity. Qed.

Example dict_set_overrides_in_place :
  dict_set (KStr "a") (PStr "3") [(KStr "a", PStr "1"); (KStr "b", PStr "2")]
  = [(KStr "a", PStr "3"); (KStr "b", PStr "2")].
Proof. reflexivity. Qed.

(** ** The common shape of the routines *)

(** Every routine issues one request; on status 200 it parses the body and
    computes its outcome from the envelope, otherwise it raises its
    [RequestException] without parsing. *)
Lemma exec_shape (c : Call) :
  exec c =
  Http (request_of c) (fun response =>
    if status_code response =? 200 then
      XmlParse (content response) (fun env => Done (on_envelope c env))
    else
      Done (inl (RequestException
        (transport_label c ++ py_str_int (status_code response))))).
Proof. destruct c; reflexivity. Qed.

Lemma run_exec (c : Call) (w : World) :
  run w (exec c) =
  match send w (request_of c) with
  | inl e => ([Sent (request_of c)], inl e)
  | inr resp =>
      if status_code resp =? 200 then
        match xml_parse w (content resp) with
        | inl e => ([Sent (request_of c); Parsed (content resp)], inl e)
        | inr env => ([Sent (request_of c); Parsed (content resp)], on_envelope c env)
        end
      else
        ([Sent (request_of c)],
         inl (RequestException (transport_label c ++ py_str_int (status_code resp))))
  end.
Proof.
  rewrite exec_shape. simpl.
  destruct (send w (request_of c)) as [e|resp]; [reflexivity|].
  destruct (status_code resp =? 200); simpl; [|reflexivity].
  destruct (xml_parse w (content resp)); reflexivity.
Qed.

Lemma run_on_envelope (c : Call) (w : World) (resp : Response) (env : PyVal) :
  send w (request_of c) = inr resp ->
  status_code resp = 200 ->
  xml_parse w (content resp) = inr env ->
  run w (exec c) = ([Sent (request_of c); Parsed (content resp)], on_envelope c env).
Proof.
  intros Hsend Hcode Hparse.
  rewrite run_exec, Hsend, Hcode, Z.eqb_refl, Hparse. reflexivity.
Qed.

(** ** Strings *)

Lemma append_inv_head (s a b : string) : s ++ a = s ++ b -> a = b.
Proof.
  induction s as [|ch s IH]; simpl; intros H; [exact H|].
  injection H as H. auto.
Qed.

Lemma to_int_not_nil (n : Z) :
  Z.to_int n <> Decimal.Pos Decimal.Nil /\ Z.to_int n <> Decimal.Neg Decimal.Nil.
Proof.
  destruct n as [|p|p]; simpl; split; try discriminate;
    intros H; injection H as H; exact (Unsigned.to_uint_nonnil p H).
Qed.

(** [str] loses nothing of an integer. *)
Lemma py_str_int_inj (n m : Z) : py_str_int n = py_str_int m -> n = m.
Proof.
  unfold py_str_int. intros H.
  apply (f_equal NilZero.int_of_string) in H.
  destruct (to_int_not_nil n) as [Hn1 Hn2], (to_int_not_nil m) as [Hm1 Hm2].
  rewrite !NilZero.isi in H by assumption.
  injection H as H.
  rewrite <- (DecimalZ.of_to n), <- (DecimalZ.of_to m), H. reflexivity.
Qed.

(** ** Request URLs *)

(** Every routine but [docsvault_login] sends its request to the base URL
    without its trailing slashes, the API namespace and its action. *)
Lemma request_url (c : Call) :
  (forall u p a, c <> Login u p a) ->
  req_url (request_of c) = rstrip (base_url c) "/" ++ "/DocsvaultAPI/" ++ action c.
Proof.
  intros Hc. destruct c; try reflexivity. exfalso. eapply Hc. reflexivity.
Qed.

(** [docsvault_login] appends its action a second time. *)
Lemma login_request_url (u p a : string) :
  req_url (request_of (Login u p a))
  = (rstrip a "/" ++ "/DocsvaultAPI/" ++ "Login") ++ "Login".
Proof. reflexivity. Qed.

(** C1 (fails on the code): the request of [docsvault_login "a" "b"
    "http://host/"] goes to [http://host/DocsvaultAPI/LoginLogin], with the
    action path twice, and not to [http://host/DocsvaultAPI/Login]. *)
Theorem login_request_repeats_action :
  request_of (Login "a" "b" "http://host/")
  = mkRequest GET "http://host/DocsvaultAPI/LoginLogin"
      [("UserName", "a"); ("Password", "b")]
  /\ req_url (request_of (Login "a" "b" "http://host/"))
     <> rstrip "http://host/" "/" ++ "/DocsvaultAPI/" ++ action (Login "a" "b" "http://host/").
Proof. split; [reflexivity | discriminate]. Qed.

(** ** Transport errors *)

(** C3: when the server answers a call with a status other than 200, the
    call sends its request and nothing else happens (the body is not handed
    to the parser); it raises [RequestException] with the routine's label
    followed by the status code in decimal, from which the code can be read
    back. *)
Theorem non_200_is_transport_error (c : Call) (w : World) (resp : Response) :
  send w (request_of c) = inr resp ->
  status_code resp <> 200 ->
  run w (exec c)
  = ([Sent (request_of c)],
     inl (RequestException (transport_label c ++ py_str_int (status_code resp))))
  /\ (forall n, transport_label c ++ py_str_int n
                = transport_label c ++ py_str_int (status_code resp) ->
                n = status_code resp).
Proof.
  intros Hsend Hcode. split.
  - rewrite run_exec, Hsend.
    apply Z.eqb_neq in Hcode. rewrite Hcode. reflexivity.
  - intros n H. apply py_str_int_inj. exact (append_inv_head _ _ _ H).
Qed.

Lemma non_200_is_transport_error_witness :
  run (mock (mkResponse 404 "Not Found") (inl ExpatError))
      (exec (GetReadonlyUsers "tok" "http://host/"))
  = ([Sent (mkRequest GET "http://host/DocsvaultAPI/UserDetails/GetReadonlyUsers"
              [("TokenID", "tok")])],
     inl (RequestException "Could not get readonly users. Status code: 404")).
Proof.
  refine (proj1 (non_200_is_transport_error (GetReadonlyUsers "tok" "http://host/")
                   (mock (mkResponse 404 "Not Found") (inl ExpatError))
                   (mkResponse 404 "Not Found") _ _)).
  - reflexivity.
  - simpl. lia.
Defined.

(** ** Evaluating a routine on an envelope *)

Ltac on_envelope_body :=
  cbv [on_envelope exec];
  cbn -[py_path py_getitem py_get py_dict py_listcomp py_dictcomp bind ret raise].

Ltac reduce_body :=
  cbn -[py_path py_getitem py_get py_dict py_listcomp py_dictcomp].

Lemma py_path_result (env : PyVal) (k : string) :
  py_path env ["Docsvault"; "Result"; k] = (r <- result_of env ;; py_getitem r k).
Proof.
  unfold result_of. simpl.
  destruct (py_getitem env "Docsvault") as [e|dv]; simpl; [reflexivity|].
  destruct (py_getitem dv "Result") as [e|r]; simpl; [reflexivity|].
  destruct (py_getitem r k); reflexivity.
Qed.

(** ** Application errors *)

Lemma failure_envelope (c : Call) (env : PyVal) (m : string) :
  status_of env = inr (PStr "1") ->
  message_of env = inr (PStr m) ->
  on_envelope c env = inl (ValueError (failure_label c ++ m)).
Proof.
  unfold status_of, message_of. intros Hs Hm.
  destruct c; on_envelope_body; rewrite Hs; reduce_body; rewrite Hm; reflexivity.
Qed.

(** C4: when the server answers a call with status 200 and an envelope
    whose StatusCode is "1" and whose Message is the string [m], the call
    raises [ValueError] with the routine's label followed by [m]. *)
Theorem failure_envelope_is_application_error
  (c : Call) (w : World) (resp : Response) (env : PyVal) (m : string) :
  send w (request_of c) = inr resp ->
  status_code resp = 200 ->
  xml_parse w (content resp) = inr env ->
  status_of env = inr (PStr "1") ->
  message_of env = inr (PStr m) ->
  snd (run w (exec c)) = inl (ValueError (failure_label c ++ m)).
Proof.
  intros Hsend Hcode Hparse Hs Hm.
  rewrite (run_on_envelope c w resp env Hsend Hcode Hparse). simpl.
  apply failure_envelope; assumption.
Qed.

Lemma failure_envelope_is_application_error_witness :
  snd (run (mock ok_response (inr (envelope (PStr "1") (PStr "bad creds") PNone)))
           (exec (Login "a" "b" "http://host")))
  = inl (ValueError "Login failed. bad creds").
Proof.
  apply (failure_envelope_is_application_error (Login "a" "b" "http://host")
           (mock ok_response (inr (envelope (PStr "1") (PStr "bad creds") PNone)))
           ok_response (envelope (PStr "1") (PStr "bad creds") PNone) "bad creds");
    reflexivity.
Defined.

(** ** Login tokens *)

(** A token that is present but None or empty is refused by both login
    routines with their own [ValueError]. *)
Lemma login_empty_token (u p a : string) (env sc tok : PyVal) :
  status_of env = inr sc ->
  py_eq_str sc "1" = false ->
  py_path env ["Docsvault"; "Result"; "TokenID"] = inr tok ->
  tok = PNone \/ tok = PStr "" ->
  on_envelope (Login u p a) env
  = inl (ValueError "Login failed. Token ID not found in API response.").
Proof.
  unfold status_of. intros Hs Hsc Ht Htok.
  on_envelope_body. rewrite Hs. reduce_body. rewrite Hsc, Ht.
  destruct Htok; subst tok; reflexivity.
Qed.

Lemma login_post_empty_token (u p a : string) (env sc tok : PyVal) :
  status_of env = inr sc ->
  py_eq_str sc "1" = false ->
  result_of env = inr tok ->
  tok = PNone \/ tok = PStr "" ->
  on_envelope (LoginPost u p a) env
  = inl (ValueError "Login failed. Token ID not found in API response.").
Proof.
  unfold status_of, result_of. intros Hs Hsc Ht Htok.
  on_envelope_body. rewrite Hs. reduce_body. rewrite Hsc, Ht.
  destruct Htok; subst tok; reflexivity.
Qed.

(** C5 (fails on the code): with a success envelope that has no token field
    the login routines raise [KeyError], not their [ValueError]:
    [docsvault_login] when Result has no TokenID entry, [docsvault_login_post]
    when the envelope has no Result entry. *)
Theorem login_absent_token_raises_key_error :
  snd (run (mock ok_response
              (inr (envelope (PStr "0") (PStr "OK") (PDict [(KStr "UserID", PStr "7")]))))
           (exec (Login "a" "b" "http://host")))
  = inl (KeyError "TokenID")
  /\ snd (run (mock ok_response
                 (inr (PDict [(KStr "Docsvault",
                               PDict [(KStr "Response",
                                       PDict [(KStr "StatusCode", PStr "0");
                                              (KStr "Message", PStr "OK")])])])))
              (exec (LoginPost "a" "b" "http://host")))
     = inl (KeyError "Result").
Proof. split; reflexivity. Qed.

(** C8: on a success envelope whose Result holds a non-empty TokenID,
    [docsvault_login] returns the value of Result.TokenID and
    [docsvault_login_post] returns the value of Result itself. *)
Theorem login_variants_read_different_fields
  (u p a : string) (env res tok : PyVal) :
  status_of env = inr (PStr "0") ->
  result_of env = inr res ->
  py_getitem res "TokenID" = inr tok ->
  py_is_none tok || py_eq_str tok "" = false ->
  on_envelope (Login u p a) env = inr tok
  /\ on_envelope (LoginPost u p a) env = inr res.
Proof.
  intros Hs Hr Ht Hne. split.
  - on_envelope_body. unfold status_of in Hs. rewrite Hs. reduce_body.
    rewrite py_path_result, Hr. reduce_body. rewrite Ht. reduce_body.
    rewrite Hne. reflexivity.
  - on_envelope_body. unfold status_of, result_of in *. rewrite Hs. reduce_body.
    rewrite Hr. destruct res; try discriminate Ht. reflexivity.
Qed.

Lemma login_variants_read_different_fields_witness :
  on_envelope (Login "a" "b" "http://host")
    (envelope (PStr "0") (PStr "OK") (PDict [(KStr "TokenID", PStr "T1")]))
  = inr (PStr "T1")
  /\ on_envelope (LoginPost "a" "b" "http://host")
       (envelope (PStr "0") (PStr "OK") (PDict [(KStr "TokenID", PStr "T1")]))
     = inr (PDict [(KStr "TokenID", PStr "T1")]).
Proof.
  apply (login_variants_read_different_fields "a" "b" "http://host"
           (envelope (PStr "0") (PStr "OK") (PDict [(KStr "TokenID", PStr "T1")]))
           (PDict [(KStr "TokenID", PStr "T1")]) (PStr "T1"));
    reflexivity.
Defined.

(** When Result is itself a non-empty string, [docsvault_login_post] returns
    it as the token. *)
Lemma login_post_plain_token (u p a tok : string) (env : PyVal) :
  status_of env = inr (PStr "0") ->
  result_of env = inr (PStr tok) ->
  tok <> "" ->
  on_envelope (LoginPost u p a) env = inr (PStr tok).
Proof.
  unfold status_of, result_of. intros Hs Hr Hne.
  on_envelope_body. rewrite Hs. reduce_body. rewrite Hr. reduce_body.
  destruct (String.eqb_spec tok ""); [contradiction | reflexivity].
Qed.

(** ** Results without a FileDetail node *)

(** C9, as the code has it: on a success envelope whose Result is a mapping
    without a FileDetail entry, the three list routines return an empty list
    under their result key. *)
Theorem missing_file_detail_gives_empty_list
  (t a x : string) (env : PyVal) (d : list (PyKey * PyVal)) :
  status_of env = inr (PStr "0") ->
  result_of env = inr (PDict d) ->
  dict_lookup (KStr "FileDetail") d = None ->
  on_envelope (GetCheckedOutFilesByUser t a x) env
  = inr (PDict [(KStr "checked_out_files", PList [])])
  /\ on_envelope (GetFileVersions t a x) env
     = inr (PDict [(KStr "file_versions", PList [])])
  /\ on_envelope (GetFileRelations t a x) env
     = inr (PDict [(KStr "related_documents", PList [])]).
Proof.
  unfold status_of, result_of. intros Hs Hr Hd.
  repeat split; on_envelope_body; rewrite Hs; reduce_body; rewrite Hr;
    cbn -[py_path]; rewrite Hd; reflexivity.
Qed.

Lemma missing_file_detail_gives_empty_list_witness :
  on_envelope (GetCheckedOutFilesByUser "tok" "http://host" "")
    (envelope (PStr "0") (PStr "OK") (PDict [(KStr "Count", PStr "0")]))
  = inr (PDict [(KStr "checked_out_files", PList [])])
  /\ on_envelope (GetFileVersions "tok" "http://host" "")
       (envelope (PStr "0") (PStr "OK") (PDict [(KStr "Count", PStr "0")]))
     = inr (PDict [(KStr "file_versions", PList [])])
  /\ on_envelope (GetFileRelations "tok" "http://host" "")
       (envelope (PStr "0") (PStr "OK") (PDict [(KStr "Count", PStr "0")]))
     = inr (PDict [(KStr "related_documents", PList [])]).
Proof.
  apply (missing_file_detail_gives_empty_list "tok" "http://host" ""
           (envelope (PStr "0") (PStr "OK") (PDict [(KStr "Count", PStr "0")]))
           [(KStr "Count", PStr "0")]);
    reflexivity.
Defined.

(** C9 (as stated, fails on the code): with StatusCode "0" and an empty
    Result element, which the parser renders as None, the Result holds no
    FileDetail node, yet each of the three routines raises [AttributeError]
    instead of returning an empty list. *)
Lemma empty_result_element_raises :
  snd (run (mock ok_response (inr (envelope (PStr "0") (PStr "OK") PNone)))
           (exec (GetCheckedOutFilesByUser "T1" "http://host" "")))
  = inl AttributeError
  /\ snd (run (mock ok_response (inr (envelope (PStr "0") (PStr "OK") PNone)))
              (exec (GetFileVersions "T1" "http://host" "12")))
     = inl AttributeError
  /\ snd (run (mock ok_response (inr (envelope (PStr "0") (PStr "OK") PNone)))
              (exec (GetFileRelations "T1" "http://host" "12")))
     = inl AttributeError.
Proof. repeat split; reflexivity. Qed.

(** When the parser makes None of an empty Result element the same routines
    raise [AttributeError]: None has no [get]. *)
Lemma none_result_raises_attribute_error (t a x : string) (env : PyVal) :
  status_of env = inr (PStr "0") ->
  result_of env = inr PNone ->
  on_envelope (GetCheckedOutFilesByUser t a x) env = inl AttributeError
  /\ on_envelope (GetFileVersions t a x) env = inl AttributeError
  /\ on_envelope (GetFileRelations t a x) env = inl AttributeError.
Proof.
  unfold status_of, result_of. intros Hs Hr.
  repeat split; on_envelope_body; rewrite Hs; reduce_body; rewrite Hr; reflexivity.
Qed.

(** ** The two definitions of docsvault_get_user_groups *)

(** C10: the first definition applied to (t, u, a) is the second applied to
    (t, a, u). *)
Theorem user_groups_definitions_agree (t u a : string) :
  docsvault_get_user_groups_first t u a = docsvault_get_user_groups t a u.
Proof. reflexivity. Qed.

(** ** Which expressions can raise ValueError

    Subscripts, [get], comprehensions and dictionary displays raise
    [KeyError], [TypeError] or [AttributeError], never [ValueError]. *)

Lemma nve_ret {A} (a : A) : is_value_error (ret a : Exc A) = false.
Proof. reflexivity. Qed.

Lemma nve_bind {A B} (m : Exc A) (f : A -> Exc B) :
  is_value_error m = false ->
  (forall a, is_value_error (f a) = false) ->
  is_value_error (x <- m ;; f x) = false.
Proof. destruct m as [e|a]; simpl; auto. Qed.

Lemma nve_getitem (v : PyVal) (k : string) : is_value_error (py_getitem v k) = false.
Proof.
  destruct v; try reflexivity. simpl.
  destruct (dict_lookup (KStr k) d); reflexivity.
Qed.

Lemma nve_get (v : PyVal) (k : string) (dflt : PyVal) :
  is_value_error (py_get v k dflt) = false.
Proof.
  destruct v; try reflexivity. simpl.
  destruct (dict_lookup (KStr k) d); reflexivity.
Qed.

Lemma nve_path (ks : list string) (v : PyVal) : is_value_error (py_path v ks) = false.
Proof.
  revert v. induction ks as [|k ks IH]; intros v; [reflexivity|].
  simpl py_path. apply nve_bind; [apply nve_getitem | exact IH].
Qed.

Lemma nve_iter (v : PyVal) : is_value_error (py_iter v) = false.
Proof. destruct v; reflexivity. Qed.

Lemma nve_hashable (v : PyVal) : is_value_error (py_hashable v) = false.
Proof. destruct v; reflexivity. Qed.

Lemma nve_mapM {A B} (f : A -> Exc B) (l : list A) :
  (forall x, is_value_error (f x) = false) ->
  is_value_error (mapM f l) = false.
Proof.
  intros Hf. induction l as [|x l IH]; [reflexivity|].
  simpl mapM. apply nve_bind; [apply Hf|]. intros y.
  apply nve_bind; [exact IH|]. intros ys. reflexivity.
Qed.

Lemma nve_listcomp (f : PyVal -> Exc PyVal) (v : PyVal) :
  (forall x, is_value_error (f x) = false) ->
  is_value_error (py_listcomp f v) = false.
Proof.
  intros Hf. unfold py_listcomp.
  apply nve_bind; [apply nve_iter|]. intros l.
  apply nve_bind; [apply nve_mapM; exact Hf|]. intros r. reflexivity.
Qed.

Lemma nve_dictcomp_loop (fk fv : PyVal -> Exc PyVal) (l : list PyVal) :
  (forall x, is_value_error (fk x) = false) ->
  (forall x, is_value_error (fv x) = false) ->
  forall acc, is_value_error (dictcomp_loop fk fv l acc) = false.
Proof.
  intros Hk Hv. induction l as [|x l IH]; intros acc; [reflexivity|].
  simpl dictcomp_loop. apply nve_bind; [apply Hk|]. intros k.
  apply nve_bind; [apply Hv|]. intros v.
  apply nve_bind; [apply nve_hashable|]. intros hk. apply IH.
Qed.

Lemma nve_dictcomp (fk fv : PyVal -> Exc PyVal) (v : PyVal) :
  (forall x, is_value_error (fk x) = false) ->
  (forall x, is_value_error (fv x) = false) ->
  is_value_error (py_dictcomp fk fv v) = false.
Proof.
  intros Hk Hv. unfold py_dictcomp.
  apply nve_bind; [apply nve_iter|]. intros l.
  apply nve_bind; [apply nve_dictcomp_loop; assumption|]. intros d. reflexivity.
Qed.

Lemma nve_dict (l : list (string * Exc PyVal)) :
  Forall (fun ke => is_value_error (snd ke) = false) l ->
  is_value_error (py_dict l) = false.
Proof.
  intros Hl. unfold py_dict. apply nve_bind; [|intros d; reflexivity].
  induction Hl as [|[k e] l He Hl IH]; [reflexivity|].
  simpl dict_items. apply nve_bind; [exact He|]. intros v.
  apply nve_bind; [exact IH|]. intros r. reflexivity.
Qed.

Ltac nve :=
  repeat first
    [ apply nve_ret
    | apply nve_path
    | apply nve_getitem
    | apply nve_get
    | apply nve_listcomp; intro
    | apply nve_dictcomp; intro
    | apply nve_dict
    | apply Forall_nil
    | apply Forall_cons; [cbn [snd]|]
    | apply nve_bind; [|intro] ].

(** ** The status test *)

Lemma py_eq_str_false (v : PyVal) (s : string) : v <> PStr s -> py_eq_str v s = false.
Proof.
  intros H. destruct v; try reflexivity. simpl.
  destruct (String.eqb_spec s0 s); [subst; contradiction | reflexivity].
Qed.

(** A status other than "1" is all the same to the routines that test for
    "1": their outcome is the one for the success status "0" and the same
    Result. *)
Lemma status_not_one (c : Call) (env env' sc : PyVal) :
  tests_for_one c = true ->
  status_of env = inr sc -> sc <> PStr "1" ->
  status_of env' = inr (PStr "0") ->
  result_of env' = result_of env ->
  on_envelope c env = on_envelope c env'.
Proof.
  unfold status_of. intros Hc Hs Hsc Hs' Hr.
  apply py_eq_str_false in Hsc.
  destruct c; try discriminate Hc; on_envelope_body; rewrite Hs, Hs'; reduce_body;
    rewrite Hsc; rewrite ?py_path_result; fold (result_of env) (result_of env');
    rewrite ?Hr; reflexivity.
Qed.

Lemma status_not_zero (c : Call) (env sc : PyVal) (m : string) :
  tests_for_one c = false ->
  status_of env = inr sc -> sc <> PStr "0" ->
  message_of env = inr (PStr m) ->
  on_envelope c env = inl (ValueError (failure_label c ++ m)).
Proof.
  unfold status_of, message_of. intros Hc Hs Hsc Hm.
  apply py_eq_str_false in Hsc.
  destruct c; try discriminate Hc; on_envelope_body; rewrite Hs; reduce_body;
    rewrite Hsc, Hm; reflexivity.
Qed.

Lemma bind_inr {A B} (a : A) (f : A -> Exc B) : (x <- inr a ;; f x) = f a.
Proof. reflexivity. Qed.

Lemma status_zero (c : Call) (env : PyVal) :
  tests_for_one c = false ->
  status_of env = inr (PStr "0") ->
  is_value_error (on_envelope c env) = false.
Proof.
  unfold status_of. intros Hc Hs.
  destruct c; try discriminate Hc; on_envelope_body; rewrite Hs, bind_inr;
    change (py_eq_str (PStr "0") "0") with true; cbv iota; nve.
Qed.

(** C6, as the code has it: [docsvault_login], [docsvault_login_post],
    [docsvault_logout] and [docsvault_get_login_user_id] raise the server's
    failure exactly on StatusCode "1" and treat any other status like the
    success status "0"; every other routine raises the server's failure on
    any StatusCode other than "0", and raises no [ValueError] on "0". *)
Theorem status_test_polarity (c : Call) (env sc : PyVal) :
  status_of env = inr sc ->
  if tests_for_one c then
    (sc = PStr "1" ->
     forall m, message_of env = inr (PStr m) ->
               on_envelope c env = inl (ValueError (failure_label c ++ m)))
    /\ (sc <> PStr "1" ->
        forall env', status_of env' = inr (PStr "0") ->
                     result_of env' = result_of env ->
                     on_envelope c env = on_envelope c env')
  else
    (sc = PStr "0" -> is_value_error (on_envelope c env) = false)
    /\ (sc <> PStr "0" ->
        forall m, message_of env = inr (PStr m) ->
                  on_envelope c env = inl (ValueError (failure_label c ++ m))).
Proof.
  intros Hs. destruct (tests_for_one c) eqn:Hc; split.
  - intros -> m Hm. apply failure_envelope; assumption.
  - intros Hsc env' Hs' Hr. eapply status_not_one; eassumption.
  - intros ->. apply status_zero; assumption.
  - intros Hsc m Hm. eapply status_not_zero; eassumption.
Qed.

(** With StatusCode "2", [docsvault_login] returns the token and
    [docsvault_get_readonly_users] raises the server's failure. *)
Lemma status_test_polarity_witness :
  on_envelope (Login "a" "b" "http://host")
    (envelope (PStr "2") (PStr "odd") (PDict [(KStr "TokenID", PStr "T1")]))
  = on_envelope (Login "a" "b" "http://host")
      (envelope (PStr "0") (PStr "OK") (PDict [(KStr "TokenID", PStr "T1")]))
  /\ on_envelope (GetReadonlyUsers "T1" "http://host")
       (envelope (PStr "2") (PStr "odd") (PDict [(KStr "UserDetail", sample_user)]))
     = inl (ValueError "Could not get readonly users. odd").
Proof.
  split.
  - refine (proj2 (status_test_polarity (Login "a" "b" "http://host")
              (envelope (PStr "2") (PStr "odd") (PDict [(KStr "TokenID", PStr "T1")]))
              (PStr "2") eq_refl) _
              (envelope (PStr "0") (PStr "OK") (PDict [(KStr "TokenID", PStr "T1")]))
              eq_refl eq_refl).
    discriminate.
  - refine (proj2 (status_test_polarity (GetReadonlyUsers "T1" "http://host")
              (envelope (PStr "2") (PStr "odd") (PDict [(KStr "UserDetail", sample_user)]))
              (PStr "2") eq_refl) _ "odd" eq_refl).
    discriminate.
Defined.

(** C6 (as stated, fails on the code): [docsvault_get_login_user_id] is not
    one of the three login operations, yet with StatusCode "2" it returns the
    user id instead of raising. *)
Lemma get_login_user_id_accepts_status_2 :
  login_operation (GetLoginUserID "T1" "http://host") = false
  /\ snd (run (mock ok_response
                 (inr (envelope (PStr "2") (PStr "odd")
                         (PDict [(KStr "UserID", PStr "7")]))))
              (exec (GetLoginUserID "T1" "http://host")))
     = inr (PStr "7").
Proof. split; reflexivity. Qed.

(** ** Projections *)

Lemma py_get_field (d : list (PyKey * PyVal)) (k : string) :
  py_get (PDict d) k PNone = inr (field (PDict d) k).
Proof.
  unfold field, py_get. destruct (dict_lookup (KStr k) d); reflexivity.
Qed.

Lemma getitem_field (v x : PyVal) (k : string) :
  py_getitem v k = inr x -> field v k = x.
Proof.
  destruct v; try discriminate. unfold field. simpl.
  destruct (dict_lookup (KStr k) d); intros H; inversion H; reflexivity.
Qed.

Lemma has_keys_getitem (v : PyVal) (ks : list string) (k : string) :
  has_keys v ks = true -> In k ks -> py_getitem v k = inr (field v k).
Proof.
  unfold has_keys. intros H Hin.
  rewrite forallb_forall in H. specialize (H k Hin).
  destruct (py_getitem v k) as [e|x] eqn:Hk; [discriminate|].
  rewrite (getitem_field _ _ _ Hk). reflexivity.
Qed.

Lemma has_keys_dict (v : PyVal) (k : string) (ks : list string) :
  has_keys v (k :: ks) = true -> exists d, v = PDict d.
Proof.
  destruct v; try discriminate. intros _. eexists. reflexivity.
Qed.

Ltac in_list := cbn; repeat first [left; reflexivity | right].

Ltac read_fields node H :=
  repeat match goal with
         | |- context [py_getitem node ?k] =>
             rewrite (has_keys_getitem node _ k H) by in_list
         end.

Lemma mapM_index_entries (ixs : list PyVal) :
  forallb (fun ix => has_keys ix ["Index"; "IndexValue"]) ixs = true ->
  mapM (fun index =>
          py_dict [("index", py_getitem index "Index");
                   ("index_value", py_getitem index "IndexValue")]) ixs
  = inr (map index_entry ixs).
Proof.
  induction ixs as [|ix ixs IH]; [reflexivity|].
  intros H. cbn [forallb] in H. apply andb_prop in H. destruct H as [Hix Hrest].
  simpl mapM. rewrite (IH Hrest). read_fields ix Hix. reflexivity.
Qed.

Lemma mapM_users (l : list PyVal) :
  forallb (fun u => has_keys u (map snd user_detail_fields)) l = true ->
  mapM (fun user_detail =>
          py_dict [
            ("user_id", py_getitem user_detail "UserID");
            ("user_name", py_getitem user_detail "UserName");
            ("full_name", py_getitem user_detail "UserFullName");
            ("description", py_getitem user_detail "UserDescription");
            ("email", py_getitem user_detail "UserEmail");
            ("dv_authentication", py_getitem user_detail "DVAuthentication");
            ("web_access", py_getitem user_detail "WebAccess");
            ("license_type", py_getitem user_detail "LicenseType")
          ]) l
  = inr (map (projected user_detail_fields) l).
Proof.
  induction l as [|u l IH]; [reflexivity|].
  intros H. cbn [forallb] in H. apply andb_prop in H. destruct H as [Hu Hrest].
  simpl mapM. rewrite (IH Hrest). read_fields u Hu. reflexivity.
Qed.

(** ** One record or many *)

(** [docsvault_get_readonly_users] wraps a lone UserDetail record in a
    list, and projects a list of records one by one. *)
Lemma readonly_users_singleton (t a : string) (env : PyVal) (d : list (PyKey * PyVal)) :
  status_of env = inr (PStr "0") ->
  py_path env ["Docsvault"; "Result"; "UserDetail"] = inr (PDict d) ->
  has_keys (PDict d) (map snd user_detail_fields) = true ->
  on_envelope (GetReadonlyUsers t a) env
  = inr (PList [projected user_detail_fields (PDict d)]).
Proof.
  unfold status_of. intros Hs Hu Hk.
  on_envelope_body. rewrite Hs. reduce_body. rewrite Hu.
  unfold py_listcomp. cbn -[py_getitem py_dict mapM]. rewrite (mapM_users [PDict d]); [reflexivity|].
  cbn [forallb]. rewrite Hk. reflexivity.
Qed.

Lemma readonly_users_list (t a : string) (env : PyVal) (l : list PyVal) :
  status_of env = inr (PStr "0") ->
  py_path env ["Docsvault"; "Result"; "UserDetail"] = inr (PList l) ->
  forallb (fun u => has_keys u (map snd user_detail_fields)) l = true ->
  on_envelope (GetReadonlyUsers t a) env
  = inr (PList (map (projected user_detail_fields) l)).
Proof.
  unfold status_of. intros Hs Hu Hk.
  on_envelope_body. rewrite Hs. reduce_body. rewrite Hu.
  unfold py_listcomp. cbn -[py_getitem py_dict mapM]. rewrite (mapM_users l Hk). reflexivity.
Qed.

(** C2 (fails on the code): the nested nodes are iterated as they come.
    With a lone Indexes record [docsvault_get_file_details] iterates over the
    record's keys and raises [TypeError]; with a lone Doc record
    [docsvault_get_folder_relations] raises [AttributeError]; and
    [docsvault_get_file_details_by_location] hands the bare record back. *)
Theorem lone_nested_record_is_not_wrapped :
  on_envelope (GetFileDetails "T1" "http://host" "12")
    (envelope (PStr "0") (PStr "OK")
       (PDict [(KStr "FileDetail",
                sample_file_detail []
                  [(KStr "ListOfIndexes", PDict [(KStr "Indexes", sample_index)])])]))
  = inl TypeError
  /\ on_envelope (GetFolderRelations "T1" "http://host" "3")
       (envelope (PStr "0") (PStr "OK")
          (PDict [(KStr "RelatedDocs",
                   PDict [(KStr "Doc", PDict [(KStr "DocID", PStr "12");
                                              (KStr "DocName", PStr "a.pdf")])])]))
     = inl AttributeError
  /\ (exists out,
        on_envelope (GetFileDetailsByLocation "T1" "http://host" "Cabinet")
          (envelope (PStr "0") (PStr "OK")
             (PDict [(KStr "FileDetail",
                      sample_file_detail
                        [(KStr "CheckedOut", PStr "false"); (KStr "CheckedOutBy", PNone);
                         (KStr "CheckedOutByName", PNone)]
                        [(KStr "ListOfIndexes", PDict [(KStr "Indexes", sample_index)])])]))
        = inr (PDict out)
        /\ dict_lookup (KStr "list_of_indexes") out = Some sample_index).
Proof.
  split; [reflexivity|]. split; [reflexivity|].
  eexists. split; reflexivity.
Qed.

(** ** The checked-out flag *)

Ltac table_cases H :=
  cbn in H;
  repeat (destruct H as [H|H]; [injection H as <- <-; reflexivity|]);
  contradiction.

(** C7: on a success envelope with a FileDetail node [fd],
    [docsvault_get_file_details] returns under [checked_out] the boolean
    "is the node's CheckedOut the string true" (false when it is absent),
    while [docsvault_get_file_details_by_location] returns the node's
    CheckedOut as it is; every other entry of both results is the node's value
    for its source field, the index list of the first being projected entry
    by entry. *)
Theorem checked_out_coercion_differs (t a x : string) (env fd : PyVal) :
  status_of env = inr (PStr "0") ->
  py_path env ["Docsvault"; "Result"; "FileDetail"] = inr fd ->
  has_keys fd (map snd file_detail_fields) = true ->
  (forall ixs,
      py_path fd ["ListOfIndexes"; "Indexes"] = inr (PList ixs) ->
      forallb (fun ix => has_keys ix ["Index"; "IndexValue"]) ixs = true ->
      exists out,
        on_envelope (GetFileDetails t a x) env = inr (PDict out)
        /\ dict_lookup (KStr "checked_out") out
           = Some (PBool (py_eq_str (field fd "CheckedOut") "true"))
        /\ dict_lookup (KStr "checked_out_by") out = Some (field fd "CheckedOutBy")
        /\ dict_lookup (KStr "checked_out_by_name") out
           = Some (field fd "CheckedOutByName")
        /\ (forall o s, In (o, s) file_detail_fields ->
                        dict_lookup (KStr o) out = Some (field fd s))
        /\ dict_lookup (KStr "indexes") out = Some (PList (map index_entry ixs)))
  /\ (has_keys fd (map snd check_out_fields) = true ->
      forall li,
        (l <- py_get fd "ListOfIndexes" (PDict []) ;; py_get l "Indexes" (PList []))
        = inr li ->
        exists out,
          on_envelope (GetFileDetailsByLocation t a x) env = inr (PDict out)
          /\ dict_lookup (KStr "checked_out") out = Some (field fd "CheckedOut")
          /\ (forall o s, In (o, s) (file_detail_fields ++ check_out_fields) ->
                          dict_lookup (KStr o) out = Some (field fd s))
          /\ dict_lookup (KStr "list_of_indexes") out = Some li).
Proof.
  unfold status_of. intros Hs Hfd Hk.
  destruct (has_keys_dict _ _ _ Hk) as [d ->].
  split.
  - intros ixs Hix Hixs.
    on_envelope_body. rewrite Hs. reduce_body. rewrite Hfd.
    cbn -[py_path py_getitem py_get py_dict py_listcomp].
    read_fields (PDict d) Hk. rewrite !py_get_field, Hix.
    unfold py_listcomp. cbn [py_iter]. cbn -[py_getitem py_dict mapM field].
    rewrite (mapM_index_entries ixs Hixs).
    cbn -[field index_entry]. eexists. split; [reflexivity|].
    repeat (split; [reflexivity|]). split; [|reflexivity].
    intros o s Hin. table_cases Hin.
  - intros Hc li Hli.
    on_envelope_body. rewrite Hs. reduce_body. rewrite Hfd.
    cbn -[py_path py_getitem py_get py_dict py_listcomp].
    read_fields (PDict d) Hk. read_fields (PDict d) Hc.
    cbn -[field py_get] in *. rewrite Hli.
    cbn -[field]. eexists. split; [reflexivity|].
    split; [reflexivity|]. split; [|reflexivity].
    intros o s Hin. table_cases Hin.
Qed.

Lemma checked_out_coercion_differs_witness :
  (exists out,
      on_envelope (GetFileDetails "T1" "http://host" "12")
        (sample_file_envelope sample_checked_out_file) = inr (PDict out)
      /\ dict_lookup (KStr "checked_out") out = Some (PBool true))
  /\ (exists out,
        on_envelope (GetFileDetailsByLocation "T1" "http://host" "Cabinet")
          (sample_file_envelope sample_checked_out_file) = inr (PDict out)
        /\ dict_lookup (KStr "checked_out") out = Some (PStr "true")).
Proof.
  destruct (checked_out_coercion_differs "T1" "http://host" "12"
              (sample_file_envelope sample_checked_out_file) sample_checked_out_file
              eq_refl eq_refl eq_refl) as [Hid _].
  destruct (checked_out_coercion_differs "T1" "http://host" "Cabinet"
              (sample_file_envelope sample_checked_out_file) sample_checked_out_file
              eq_refl eq_refl eq_refl) as [_ Hloc].
  split.
  - destruct (Hid [sample_index] eq_refl eq_refl) as [out [Hout [Hflag _]]].
    exists out. split; assumption.
  - destruct (Hloc eq_refl (PList [sample_index]) eq_refl) as [out [Hout [Hflag _]]].
    exists out. split; assumption.
Defined.

(** The flag is true for the string "true" and for nothing else. *)
Lemma checked_out_flag (d : list (PyKey * PyVal)) :
  py_eq_str (field (PDict d) "CheckedOut") "true" = true
  <-> dict_lookup (KStr "CheckedOut") d = Some (PStr "true").
Proof.
  unfold field, py_get.
  destruct (dict_lookup (KStr "CheckedOut") d) as [v|]; simpl.
  - destruct v; simpl; split; intros H; try discriminate.
    + apply String.eqb_eq in H. subst. reflexivity.
    + injection H as ->. reflexivity.
  - split; discriminate.
Qed.

Example file_details_unchecked :
  exists out,
    on_envelope (GetFileDetails "T1" "http://host" "12")
      (sample_file_envelope
         (sample_file_detail []
            [(KStr "ListOfIndexes", PDict [(KStr "Indexes", PList [])])]))
    = inr (PDict out)
    /\ dict_lookup (KStr "checked_out") out = Some (PBool false)
    /\ dict_lookup (KStr "checked_out_by") out = Some PNone.
Proof. eexists. repeat split; reflexivity. Qed.

Example file_details_flag_is_case_sensitive :
  exists out,
    on_envelope (GetFileDetails "T1" "http://host" "12")
      (sample_file_envelope
         (sample_file_detail [(KStr "CheckedOut", PStr "True")]
            [(KStr "ListOfIndexes", PDict [(KStr "Indexes", PList [])])]))
    = inr (PDict out)
    /\ dict_lookup (KStr "checked_out") out = Some (PBool false).
Proof. eexists. repeat split; reflexivity. Qed.

(** * Further properties of the routines *)

(** ** Requests *)

Lemma rstrip_slashes (n : nat) : rstrip (slashes n) "/" = "".
Proof.
  induction n as [|n IH]; [reflexivity|].
  simpl. rewrite IH. reflexivity.
Qed.

Lemma rstrip_app_slashes (s : string) (n : nat) :
  rstrip (s ++ slashes n) "/" = rstrip s "/".
Proof.
  induction s as [|a s IH]; simpl.
  - apply rstrip_slashes.
  - rewrite IH. reflexivity.
Qed.

Lemma rstrip_not_trailing (s q : string) (c : ascii) :
  rstrip s c <> q ++ String c "".
Proof.
  revert q. induction s as [|a s IH]; intros q; simpl.
  - destruct q; discriminate.
  - destruct (rstrip s c) as [|b r] eqn:Hr.
    + destruct (Ascii.eqb_spec a c) as [->|Hne].
      * destruct q; discriminate.
      * destruct q as [|x q]; simpl; intros H.
        -- injection H as H1. contradiction.
        -- injection H as H1 H2. destruct q; discriminate.
    + destruct q as [|x q]; simpl; intros H.
      * discriminate.
      * injection H as H1 H2. exact (IH q H2).
Qed.

(** X1: trailing slashes of the base URL make no difference to the request
    a call issues. *)
Theorem request_ignores_trailing_slashes (c : Call) (n : nat) :
  request_of (with_base_url c (base_url c ++ slashes n)) = request_of c.
Proof.
  destruct c; cbv [request_of with_base_url base_url exec docsvault_login
    docsvault_login_post docsvault_logout docsvault_get_login_user_id
    docsvault_get_user_details_by_name docsvault_get_user_details_by_id
    docsvault_get_user_details_by_email docsvault_get_readonly_users
    docsvault_get_webaccess_users docsvault_get_connected_users
    docsvault_get_user_groups docsvault_get_file_details
    docsvault_get_file_details_by_location docsvault_get_file_profile
    docsvault_get_checked_out_files_by_user docsvault_get_file_versions
    docsvault_get_file_relations docsvault_get_folder_details_by_id
    docsvault_get_folder_details_by_location docsvault_get_folder_profile
    docsvault_get_folder_relations requests_get requests_post];
    rewrite rstrip_app_slashes; reflexivity.
Qed.

Lemma rstrip_removes_slashes_only (s : string) :
  exists n, s = rstrip s "/" ++ slashes n.
Proof.
  induction s as [|a s [n IH]]; [exists O; reflexivity|].
  simpl. destruct (rstrip s "/") as [|b r] eqn:Hr.
  - simpl in IH. destruct (Ascii.eqb_spec a "/") as [->|Hne].
    + exists (S n). simpl. rewrite <- IH. reflexivity.
    + exists n. simpl. rewrite <- IH. reflexivity.
  - exists n. simpl. simpl in IH. rewrite <- IH. reflexivity.
Qed.

(** X2: the URL of every request starts with the base URL less its
    trailing slashes (and nothing but slashes is removed), followed by
    /DocsvaultAPI/: there is exactly one slash before the API namespace. *)
Theorem request_url_has_single_separator (c : Call) :
  exists rest n,
    req_url (request_of c) = rstrip (base_url c) "/" ++ "/DocsvaultAPI/" ++ rest
    /\ base_url c = rstrip (base_url c) "/" ++ slashes n
    /\ forall q, rstrip (base_url c) "/" <> q ++ "/".
Proof.
  destruct (rstrip_removes_slashes_only (base_url c)) as [n Hn].
  assert (Hq : forall q, rstrip (base_url c) "/" <> q ++ "/")
    by (intros q; apply rstrip_not_trailing).
  destruct c; try (eexists; exists n; split; [reflexivity | split; assumption]).
  exists "LoginLogin", n. split; [|split; assumption].
  rewrite login_request_url. cbn [base_url].
  induction (rstrip api_url "/") as [|ch s IH]; [reflexivity|].
  simpl. f_equal. exact IH.
Qed.

(** X3: only [docsvault_login_post] uses POST; the two logins send the
    user name and password as query parameters, and every other routine
    sends the caller's session token as its first query parameter
    TokenID. *)
Theorem request_method_and_parameters (c : Call) :
  (req_method (request_of c) = POST <-> exists u p a, c = LoginPost u p a)
  /\ match session_token c with
     | Some t => hd_error (req_params (request_of c)) = Some ("TokenID", t)
     | None =>
         exists u p, map fst (req_params (request_of c)) = ["UserName"; "Password"]
                     /\ map snd (req_params (request_of c)) = [u; p]
     end.
Proof.
  split.
  - split.
    + destruct c; try discriminate. intros _. eauto.
    + intros [u [p [a ->]]]. reflexivity.
  - destruct c; try reflexivity; cbn; eauto.
Qed.

(** ** One attempt *)

(** X4: a call sends exactly one request, and hands at most one body to
    the parser, namely the body of a response with status 200; there is no
    second attempt. *)
Theorem single_request_single_parse (c : Call) (w : World) :
  fst (run w (exec c)) = [Sent (request_of c)]
  \/ exists resp,
       send w (request_of c) = inr resp
       /\ status_code resp = 200
       /\ fst (run w (exec c)) = [Sent (request_of c); Parsed (content resp)].
Proof.
  rewrite run_exec.
  destruct (send w (request_of c)) as [e|resp] eqn:Hsend; [left; reflexivity|].
  destruct (Z.eqb_spec (status_code resp) 200) as [Hcode|Hcode]; [|left; reflexivity].
  right. exists resp. repeat split; try assumption.
  destruct (xml_parse w (content resp)); reflexivity.
Qed.

(** ** Envelopes that are not as expected *)

(** X6: when the envelope's status cannot be read (no Docsvault, Response
    or StatusCode entry, or a node on the way that is not a mapping), every
    routine raises the error of that subscript. *)
Theorem unreadable_status_propagates (c : Call) (env : PyVal) (e : Exn) :
  status_of env = inl e ->
  on_envelope c env = inl e.
Proof.
  unfold status_of. intros Hs.
  destruct c; on_envelope_body; rewrite Hs; reflexivity.
Qed.

Lemma unreadable_status_propagates_witness :
  on_envelope (GetFileVersions "T1" "http://host" "12")
    (PDict [(KStr "Docsvault", PDict [(KStr "Result", PNone)])])
  = inl (KeyError "Response").
Proof.
  exact (unreadable_status_propagates (GetFileVersions "T1" "http://host" "12")
           (PDict [(KStr "Docsvault", PDict [(KStr "Result", PNone)])])
           (KeyError "Response") eq_refl).
Defined.

(** X7: on its failure branch a routine needs a string Message: when the
    Message cannot be read the error of that subscript is raised, and when it
    is not a string (None for an empty element) [TypeError] is raised; in
    neither case the routine's [ValueError]. *)
Theorem failure_needs_string_message (c : Call) (env sc : PyVal) :
  status_of env = inr sc ->
  status_fails c sc = true ->
  (forall e, message_of env = inl e -> on_envelope c env = inl e)
  /\ (forall v, message_of env = inr v -> (forall m, v <> PStr m) ->
                on_envelope c env = inl TypeError).
Proof.
  unfold status_of, message_of, status_fails. intros Hs Hf. split.
  - intros e Hm.
    destruct c; cbn [tests_for_one] in Hf; try apply negb_true_iff in Hf;
      on_envelope_body; rewrite Hs; reduce_body; rewrite Hf, Hm; reflexivity.
  - intros v Hm Hv.
    destruct c; cbn [tests_for_one] in Hf; try apply negb_true_iff in Hf;
      on_envelope_body; rewrite Hs; reduce_body; rewrite Hf, Hm;
      (destruct v; try reflexivity; exfalso; eapply Hv; reflexivity).
Qed.

Lemma failure_needs_string_message_witness :
  on_envelope (GetFolderProfile "T1" "http://host" "3")
    (envelope (PStr "1") PNone PNone)
  = inl TypeError.
Proof.
  refine (proj2 (failure_needs_string_message (GetFolderProfile "T1" "http://host" "3")
                   (envelope (PStr "1") PNone PNone) (PStr "1") eq_refl eq_refl)
            PNone eq_refl _).
  intros m. discriminate.
Defined.

(** ** The errors a routine raises by itself *)

Lemma own_ret {A} (a : A) : own_outcome (ret a : Exc A) = true.
Proof. reflexivity. Qed.

Lemma own_bind {A B} (m : Exc A) (f : A -> Exc B) :
  own_outcome m = true ->
  (forall a, own_outcome (f a) = true) ->
  own_outcome (x <- m ;; f x) = true.
Proof. destruct m as [e|a]; simpl; auto. Qed.

Lemma own_getitem (v : PyVal) (k : string) : own_outcome (py_getitem v k) = true.
Proof.
  destruct v; try reflexivity. simpl.
  destruct (dict_lookup (KStr k) d); reflexivity.
Qed.

Lemma own_get (v : PyVal) (k : string) (dflt : PyVal) :
  own_outcome (py_get v k dflt) = true.
Proof.
  destruct v; try reflexivity. simpl.
  destruct (dict_lookup (KStr k) d); reflexivity.
Qed.

Lemma own_path (ks : list string) (v : PyVal) : own_outcome (py_path v ks) = true.
Proof.
  revert v. induction ks as [|k ks IH]; intros v; [reflexivity|].
  simpl py_path. apply own_bind; [apply own_getitem | exact IH].
Qed.

Lemma own_add_str (p : string) (v : PyVal) : own_outcome (py_add_str p v) = true.
Proof. destruct v; reflexivity. Qed.

Lemma own_iter (v : PyVal) : own_outcome (py_iter v) = true.
Proof. destruct v; reflexivity. Qed.

Lemma own_hashable (v : PyVal) : own_outcome (py_hashable v) = true.
Proof. destruct v; reflexivity. Qed.

Lemma own_mapM {A B} (f : A -> Exc B) (l : list A) :
  (forall x, own_outcome (f x) = true) ->
  own_outcome (mapM f l) = true.
Proof.
  intros Hf. induction l as [|x l IH]; [reflexivity|].
  simpl mapM. apply own_bind; [apply Hf|]. intros y.
  apply own_bind; [exact IH|]. intros ys. reflexivity.
Qed.

Lemma own_listcomp (f : PyVal -> Exc PyVal) (v : PyVal) :
  (forall x, own_outcome (f x) = true) ->
  own_outcome (py_listcomp f v) = true.
Proof.
  intros Hf. unfold py_listcomp.
  apply own_bind; [apply own_iter|]. intros l.
  apply own_bind; [apply own_mapM; exact Hf|]. intros r. reflexivity.
Qed.

Lemma own_dictcomp (fk fv : PyVal -> Exc PyVal) (v : PyVal) :
  (forall x, own_outcome (fk x) = true) ->
  (forall x, own_outcome (fv x) = true) ->
  own_outcome (py_dictcomp fk fv v) = true.
Proof.
  intros Hk Hv. unfold py_dictcomp.
  apply own_bind; [apply own_iter|]. intros l.
  apply own_bind; [|intros d; reflexivity].
  generalize (@nil (PyKey * PyVal)).
  induction l as [|x l IH]; intros acc; [reflexivity|].
  simpl dictcomp_loop. apply own_bind; [apply Hk|]. intros k.
  apply own_bind; [apply Hv|]. intros y.
  apply own_bind; [apply own_hashable|]. intros hk. apply IH.
Qed.

Lemma own_dict (l : list (string * Exc PyVal)) :
  Forall (fun ke => own_outcome (snd ke) = true) l ->
  own_outcome (py_dict l) = true.
Proof.
  intros Hl. unfold py_dict. apply own_bind; [|intros d; reflexivity].
  induction Hl as [|[k e] l He Hl IH]; [reflexivity|].
  simpl dict_items. apply own_bind; [exact He|]. intros v.
  apply own_bind; [exact IH|]. intros r. reflexivity.
Qed.

Ltac own :=
  repeat first
    [ apply own_ret
    | apply own_path
    | apply own_getitem
    | apply own_get
    | apply own_add_str
    | apply own_listcomp; intro
    | apply own_dictcomp; intro
    | apply own_dict
    | apply Forall_nil
    | apply Forall_cons; [cbn [snd]|]
    | apply own_bind; [|intro]
    | reflexivity
    | match goal with
      | |- own_outcome (if ?b then _ else _) = true => destruct b
      end ].

(** X8: whatever the envelope, what a routine makes of it is a value, its
    [ValueError], or a [KeyError], [TypeError] or [AttributeError] of a
    failed access; in particular a routine raises [RequestException] only for
    a status other than 200. *)
Theorem envelope_outcomes (c : Call) (env : PyVal) :
  own_outcome (on_envelope c env) = true
  /\ forall msg, on_envelope c env <> inl (RequestException msg).
Proof.
  assert (H : own_outcome (on_envelope c env) = true).
  { destruct c; on_envelope_body; own. }
  split; [exact H|].
  intros msg Heq. rewrite Heq in H. discriminate.
Qed.

(** ** Tokens *)

(** X9: whenever [docsvault_login], [docsvault_login_post] or
    [docsvault_get_login_user_id] returns, the value returned is neither
    None nor the empty string. *)
Theorem returned_token_is_not_empty (c : Call) (env v : PyVal) :
  returns_token c = true ->
  on_envelope c env = inr v ->
  py_is_none v || py_eq_str v "" = false.
Proof.
  intros Hc.
  destruct c; try discriminate Hc; on_envelope_body; intros H;
    cbn -[py_path py_is_none py_eq_str orb] in H;
    repeat match type of H with
           | context [match ?x with _ => _ end] => destruct x eqn:?; try discriminate H
           end;
    injection H as <-; assumption.
Qed.

Lemma returned_token_is_not_empty_witness :
  on_envelope (LoginPost "a" "b" "http://host")
    (envelope (PStr "0") (PStr "OK") (PStr "T1")) = inr (PStr "T1")
  /\ py_is_none (PStr "T1") || py_eq_str (PStr "T1") "" = false.
Proof.
  split; [reflexivity|].
  exact (returned_token_is_not_empty (LoginPost "a" "b" "http://host")
           (envelope (PStr "0") (PStr "OK") (PStr "T1")) (PStr "T1") eq_refl eq_refl).
Defined.

(** ** One record or a list of records *)

(** X10: for the seven routines that test [isinstance(..., dict)], a lone
    record gives the same outcome as a list holding just that record. *)
Theorem lone_record_is_one_element_list
  (c : Call) (env env' : PyVal) (d : list (PyKey * PyVal)) :
  status_of env = inr (PStr "0") ->
  status_of env' = inr (PStr "0") ->
  list_node c env = Some (inr (PDict d)) ->
  list_node c env' = Some (inr (PList [PDict d])) ->
  on_envelope c env = on_envelope c env'.
Proof.
  unfold status_of. intros Hs Hs' Hn Hn'.
  pose (unSome := fun o : option (Exc PyVal) =>
                    match o with Some x => x | None => inl TypeError end).
  apply (f_equal unSome) in Hn, Hn'.
  destruct c; try discriminate Hn;
    cbv beta iota delta [list_node unSome] in Hn, Hn';
    on_envelope_body; rewrite Hs, Hs'; reduce_body;
    try (rewrite Hn, Hn'; reflexivity);
    cbn -[py_path py_get] in Hn, Hn';
    destruct (py_path env ["Docsvault"; "Result"]) as [e|r]; try discriminate Hn;
    destruct (py_path env' ["Docsvault"; "Result"]) as [e'|r']; try discriminate Hn';
    rewrite Hn, Hn'; reflexivity.
Qed.

Lemma lone_record_is_one_element_list_witness :
  on_envelope (GetUserGroups "T1" "http://host" "5")
    (envelope (PStr "0") (PStr "OK")
       (PDict [(KStr "Group", PDict [(KStr "GroupName", PStr "staff")])]))
  = on_envelope (GetUserGroups "T1" "http://host" "5")
      (envelope (PStr "0") (PStr "OK")
         (PDict [(KStr "Group", PList [PDict [(KStr "GroupName", PStr "staff")]])])).
Proof.
  exact (lone_record_is_one_element_list (GetUserGroups "T1" "http://host" "5")
           (envelope (PStr "0") (PStr "OK")
              (PDict [(KStr "Group", PDict [(KStr "GroupName", PStr "staff")])]))
           (envelope (PStr "0") (PStr "OK")
              (PDict [(KStr "Group", PList [PDict [(KStr "GroupName", PStr "staff")]])]))
           [(KStr "GroupName", PStr "staff")] eq_refl eq_refl eq_refl eq_refl).
Defined.

(** ** Records read by subscript *)

Lemma has_keys_app (v : PyVal) (ks ks' : list string) :
  has_keys v (ks ++ ks') = has_keys v ks && has_keys v ks'.
Proof. unfold has_keys. apply forallb_app. Qed.

(** A display of subscripts gives the projected record when the node has
    every source field. *)
Lemma subscript_entries_ok (fields : list (string * string)) (node : PyVal) :
  has_keys node (map snd fields) = true ->
  py_dict (subscript_entries fields node) = inr (projected fields node).
Proof.
  intros H. unfold py_dict, projected.
  assert (Hi : dict_items (subscript_entries fields node)
               = inr (map (fun os => (KStr (fst os), field node (snd os))) fields)).
  { induction fields as [|[o s] fields IH]; [reflexivity|].
    cbn [map snd has_keys forallb] in H. apply andb_prop in H. destruct H as [Hs Hrest].
    cbn [subscript_entries map dict_items fst snd].
    destruct (py_getitem node s) as [e|x] eqn:Hx; [discriminate|].
    rewrite (getitem_field _ _ _ Hx).
    fold (subscript_entries fields node). rewrite (IH Hrest). reflexivity. }
  rewrite Hi. reflexivity.
Qed.

(** It raises the error of the first subscript that fails. *)
Lemma subscript_entries_first_error
  (pre post : list (string * string)) (o s : string) (node : PyVal) (e : Exn) :
  has_keys node (map snd pre) = true ->
  py_getitem node s = inl e ->
  py_dict (subscript_entries (pre ++ (o, s) :: post) node) = inl e.
Proof.
  intros Hpre He. unfold py_dict.
  assert (Hi : dict_items (subscript_entries (pre ++ (o, s) :: post) node) = inl e).
  { induction pre as [|[o' s'] pre IH].
    - cbn [app subscript_entries map dict_items fst snd]. rewrite He. reflexivity.
    - cbn [map snd has_keys forallb] in Hpre. apply andb_prop in Hpre.
      destruct Hpre as [Hs Hrest].
      cbn [app subscript_entries map dict_items fst snd].
      destruct (py_getitem node s') as [e'|x]; [discriminate|].
      fold (subscript_entries (pre ++ (o, s) :: post) node).
      rewrite (IH Hrest). reflexivity. }
  rewrite Hi. reflexivity.
Qed.

Lemma subscript_entries_fail (fields : list (string * string)) (node : PyVal) :
  has_keys node (map snd fields) = false ->
  exists e, py_dict (subscript_entries fields node) = inl e.
Proof.
  induction fields as [|[o s] fields IH]; [discriminate|].
  cbn [map snd has_keys forallb]. intros H.
  destruct (py_getitem node s) as [e|x] eqn:Hx.
  - exists e. apply (subscript_entries_first_error [] fields o s node e eq_refl Hx).
  - destruct (IH H) as [e He]. exists e.
    unfold py_dict in *. cbn [subscript_entries map dict_items fst snd].
    rewrite Hx. fold (subscript_entries fields node).
    destruct (dict_items (subscript_entries fields node)); [|discriminate].
    cbn in He. injection He as ->. reflexivity.
Qed.

Lemma mapM_ok {A B} (f : A -> Exc B) (g : A -> B) (ok : A -> bool) (l : list A) :
  (forall x, ok x = true -> f x = inr (g x)) ->
  forallb ok l = true ->
  mapM f l = inr (map g l).
Proof.
  intros Hf. induction l as [|x l IH]; [reflexivity|].
  cbn [forallb]. intros H. apply andb_prop in H. destruct H as [Hx Hl].
  cbn [mapM map]. rewrite (Hf x Hx). cbn. rewrite (IH Hl). reflexivity.
Qed.

Lemma mapM_fail {A B} (f : A -> Exc B) (ok : A -> bool) (l : list A) :
  (forall x, ok x = false -> exists e, f x = inl e) ->
  forallb ok l = false ->
  exists e, mapM f l = inl e.
Proof.
  intros Hf. induction l as [|x l IH]; [discriminate|].
  cbn [forallb]. intros H. cbn [mapM].
  destruct (f x) as [e|y] eqn:Hx; [exists e; reflexivity|].
  destruct (ok x) eqn:Hok.
  - destruct (IH H) as [e He]. exists e. cbn. rewrite He. reflexivity.
  - destruct (Hf x Hok) as [e He]. congruence.
Qed.

(** The records of a list are projected one by one, and one incomplete
    record fails the whole list. *)
Lemma listcomp_fields (fields : list (string * string)) (l : list PyVal) :
  (forallb (fun u => has_keys u (map snd fields)) l = true ->
   py_listcomp (fun u => py_dict (subscript_entries fields u)) (PList l)
   = inr (PList (map (projected fields) l)))
  /\ (forallb (fun u => has_keys u (map snd fields)) l = false ->
      exists e, py_listcomp (fun u => py_dict (subscript_entries fields u)) (PList l)
                = inl e).
Proof.
  unfold py_listcomp. cbn [py_iter]. split; intros H.
  - cbn -[mapM py_dict subscript_entries projected].
    rewrite (mapM_ok _ (projected fields) _ l
               (fun u Hu => subscript_entries_ok fields u Hu) H).
    reflexivity.
  - destruct (mapM_fail _ _ l (fun u Hu => subscript_entries_fail fields u Hu) H)
      as [e He].
    exists e. cbn -[mapM py_dict subscript_entries projected]. rewrite He. reflexivity.
Qed.

(** X11: given a list of records, [docsvault_get_readonly_users],
    [docsvault_get_webaccess_users], [docsvault_get_connected_users] and
    [docsvault_get_user_groups] return the records projected one by one, in
    order, when every record has all the source fields, and raise otherwise:
    one incomplete record fails the whole call. *)
Theorem record_list_all_or_nothing
  (c : Call) (fields : list (string * string)) (env : PyVal) (l : list PyVal) :
  record_fields c = Some fields ->
  status_of env = inr (PStr "0") ->
  list_node c env = Some (inr (PList l)) ->
  (forallb (fun u => has_keys u (map snd fields)) l = true ->
   on_envelope c env = inr (PList (map (projected fields) l)))
  /\ (forallb (fun u => has_keys u (map snd fields)) l = false ->
      exists e, on_envelope c env = inl e).
Proof.
  unfold status_of. intros Hf Hs Hn.
  pose (unSome := fun o : option (Exc PyVal) =>
                    match o with Some x => x | None => inl TypeError end).
  apply (f_equal unSome) in Hn.
  destruct c; try discriminate Hf; injection Hf as <-;
    cbv beta iota delta [list_node unSome] in Hn;
    split; intros H;
    on_envelope_body; rewrite Hs; reduce_body; rewrite Hn; cbn [py_is_dict];
    first [ exact (proj1 (listcomp_fields _ l) H)
          | exact (proj2 (listcomp_fields _ l) H) ].
Qed.

Lemma record_list_all_or_nothing_witness :
  on_envelope (GetReadonlyUsers "T1" "http://host")
    (envelope (PStr "0") (PStr "OK")
       (PDict [(KStr "UserDetail", PList [sample_user; sample_user])]))
  = inr (PList [projected user_detail_fields sample_user;
                projected user_detail_fields sample_user])
  /\ exists e,
       on_envelope (GetReadonlyUsers "T1" "http://host")
         (envelope (PStr "0") (PStr "OK")
            (PDict [(KStr "UserDetail", PList [sample_user; PDict []])]))
       = inl e.
Proof.
  split.
  - exact (proj1 (record_list_all_or_nothing (GetReadonlyUsers "T1" "http://host")
                    user_detail_fields
                    (envelope (PStr "0") (PStr "OK")
                       (PDict [(KStr "UserDetail", PList [sample_user; sample_user])]))
                    [sample_user; sample_user] eq_refl eq_refl eq_refl) eq_refl).
  - exact (proj2 (record_list_all_or_nothing (GetReadonlyUsers "T1" "http://host")
                    user_detail_fields
                    (envelope (PStr "0") (PStr "OK")
                       (PDict [(KStr "UserDetail", PList [sample_user; PDict []])]))
                    [sample_user; PDict []] eq_refl eq_refl eq_refl) eq_refl).
Defined.

Lemma py_dict_singleton (k : string) (e : Exc PyVal) :
  py_dict [(k, e)] = (v <- e ;; ret (PDict [(KStr k, v)])).
Proof. unfold py_dict. destruct e; reflexivity. Qed.

(** X12: [docsvault_get_file_versions] and [docsvault_get_file_relations]
    return, under their result key, the FileDetail records projected one by
    one when every record has all the source fields, and raise otherwise. *)
Theorem keyed_list_all_or_nothing
  (c : Call) (key : string) (fields : list (string * string))
  (env : PyVal) (l : list PyVal) :
  keyed_list c = Some (key, fields) ->
  status_of env = inr (PStr "0") ->
  list_node c env = Some (inr (PList l)) ->
  (forallb (fun u => has_keys u (map snd fields)) l = true ->
   on_envelope c env = inr (PDict [(KStr key, PList (map (projected fields) l))]))
  /\ (forallb (fun u => has_keys u (map snd fields)) l = false ->
      exists e, on_envelope c env = inl e).
Proof.
  unfold status_of. intros Hf Hs Hn.
  pose (unSome := fun o : option (Exc PyVal) =>
                    match o with Some x => x | None => inl TypeError end).
  apply (f_equal unSome) in Hn.
  destruct c; try discriminate Hf; injection Hf as <- <-;
    cbv beta iota delta [list_node unSome] in Hn;
    split; intros H;
    on_envelope_body; rewrite Hs; reduce_body;
    cbn -[py_path py_get] in Hn;
    (destruct (py_path env ["Docsvault"; "Result"]) as [e|r]; [discriminate Hn|]);
    rewrite Hn; cbn [py_is_dict].
  - pose proof (proj1 (listcomp_fields version_fields l) H) as Hl.
    cbn [subscript_entries map fst snd version_fields] in Hl.
    rewrite py_dict_singleton, Hl. reflexivity.
  - destruct (proj2 (listcomp_fields version_fields l) H) as [e He].
    cbn [subscript_entries map fst snd version_fields] in He.
    exists e. rewrite py_dict_singleton, He. reflexivity.
  - pose proof (proj1 (listcomp_fields relation_fields l) H) as Hl.
    cbn [subscript_entries map fst snd relation_fields] in Hl.
    rewrite py_dict_singleton, Hl. reflexivity.
  - destruct (proj2 (listcomp_fields relation_fields l) H) as [e He].
    cbn [subscript_entries map fst snd relation_fields] in He.
    exists e. rewrite py_dict_singleton, He. reflexivity.
Qed.

Lemma keyed_list_all_or_nothing_witness :
  on_envelope (GetFileRelations "T1" "http://host" "12")
    (envelope (PStr "0") (PStr "OK")
       (PDict [(KStr "FileDetail",
                PList [PDict [(KStr "FileID", PStr "13"); (KStr "Description", PNone);
                              (KStr "Location", PStr "Cabinet")]])]))
  = inr (PDict [(KStr "related_documents",
                 PList [PDict [(KStr "file_id", PStr "13"); (KStr "description", PNone);
                               (KStr "location", PStr "Cabinet")]])]).
Proof.
  exact (proj1 (keyed_list_all_or_nothing (GetFileRelations "T1" "http://host" "12")
                  "related_documents" relation_fields
                  (envelope (PStr "0") (PStr "OK")
                     (PDict [(KStr "FileDetail",
                              PList [PDict [(KStr "FileID", PStr "13");
                                            (KStr "Description", PNone);
                                            (KStr "Location", PStr "Cabinet")]])]))
                  [PDict [(KStr "FileID", PStr "13"); (KStr "Description", PNone);
                          (KStr "Location", PStr "Cabinet")]]
                  eq_refl eq_refl eq_refl) eq_refl).
Defined.

(** X13: the three user-detail lookups return the projected record when
    the UserDetail node has every source field, and otherwise raise the error
    of the first field, in result order, that cannot be read: [KeyError] with
    that field's name when the node is a mapping. *)
Theorem user_details_record_or_first_error (c : Call) (env node : PyVal) :
  user_details_call c = true ->
  status_of env = inr (PStr "0") ->
  py_path env ["Docsvault"; "Result"; "UserDetail"] = inr node ->
  (has_keys node (map snd user_detail_fields) = true ->
   on_envelope c env = inr (projected user_detail_fields node))
  /\ (forall pre o s post e,
         user_detail_fields = (pre ++ (o, s) :: post)%list ->
         has_keys node (map snd pre) = true ->
         py_getitem node s = inl e ->
         on_envelope c env = inl e)
  /\ (forall d s, node = PDict d -> dict_lookup (KStr s) d = None ->
                  py_getitem node s = inl (KeyError s)).
Proof.
  unfold status_of. intros Hc Hs Hn. split; [|split].
  - intros Hk.
    destruct c; try discriminate Hc; on_envelope_body; rewrite Hs; reduce_body;
      rewrite Hn; exact (subscript_entries_ok user_detail_fields node Hk).
  - intros pre o s post e Hsplit Hpre He.
    pose proof (subscript_entries_first_error pre post o s node e Hpre He) as H.
    rewrite <- Hsplit in H.
    destruct c; try discriminate Hc; on_envelope_body; rewrite Hs; reduce_body;
      rewrite Hn; exact H.
  - intros d s -> Hd. cbn. rewrite Hd. reflexivity.
Qed.

Lemma user_details_record_or_first_error_witness :
  on_envelope (GetUserDetailsByEmail "T1" "ann@example.org" "http://host")
    (envelope (PStr "0") (PStr "OK")
       (PDict [(KStr "UserDetail", PDict [(KStr "UserID", PStr "5")])]))
  = inl (KeyError "UserName").
Proof.
  exact (proj1 (proj2 (user_details_record_or_first_error
                         (GetUserDetailsByEmail "T1" "ann@example.org" "http://host")
                         (envelope (PStr "0") (PStr "OK")
                            (PDict [(KStr "UserDetail", PDict [(KStr "UserID", PStr "5")])]))
                         (PDict [(KStr "UserID", PStr "5")]) eq_refl eq_refl eq_refl))
           [("user_id", "UserID")] "user_name" "UserName"
           (tl (tl user_detail_fields)) (KeyError "UserName") eq_refl eq_refl eq_refl).
Defined.

(** ** Checked-out files *)

Lemma py_get_field_or_empty (d : list (PyKey * PyVal)) (k : string) :
  py_get (PDict d) k (PStr "") = inr (field_or_empty (PDict d) k).
Proof.
  unfold field_or_empty, py_get. destruct (dict_lookup (KStr k) d); reflexivity.
Qed.

Lemma checked_out_record_ok (fd : PyVal) :
  has_keys fd checked_out_required = true ->
  py_dict [
    ("file_id", py_getitem fd "FileID");
    ("parent_id", py_getitem fd "ParentID");
    ("file_name", py_getitem fd "FileName");
    ("description", py_getitem fd "Description");
    ("flag_name", py_getitem fd "FlagName");
    ("file_size", py_getitem fd "FileSize");
    ("doc_type", py_getitem fd "DocType");
    ("pages", py_getitem fd "Pages");
    ("version", py_getitem fd "Version");
    ("version_note", py_getitem fd "VersionNote");
    ("version_owner", py_getitem fd "VersionOwner");
    ("version_owner_name", py_getitem fd "VersionOwnerName");
    ("modified_date", py_getitem fd "ModifiedDate");
    ("created_date", py_getitem fd "CreatedDate");
    ("accessed_date", py_getitem fd "AccessedDate");
    ("checked_out",
       (c <- py_get fd "CheckedOut" PNone ;; ret (PBool (py_eq_str c "true"))));
    ("checked_out_by", py_get fd "CheckedOutBy" (PStr ""));
    ("checked_out_by_name", py_get fd "CheckedOutByName" (PStr ""));
    ("owner_id", py_getitem fd "OwnerID");
    ("owner_name", py_getitem fd "OwnerName");
    ("location", py_getitem fd "Location")
  ] = inr (checked_out_record fd).
Proof.
  intros Hk. destruct (has_keys_dict _ _ _ Hk) as [d ->].
  read_fields (PDict d) Hk.
  rewrite !py_get_field, !py_get_field_or_empty. reflexivity.
Qed.

(** X14: given a list of FileDetail records that have the fields read by
    subscript, [docsvault_get_checked_out_files_by_user] returns under
    [checked_out_files] one record per node, in order, whose [checked_out]
    is the boolean "CheckedOut is the string true" and whose
    [checked_out_by] and [checked_out_by_name] are the empty string when the
    node has no such field. *)
Theorem checked_out_files_projection (t a x : string) (env : PyVal) (l : list PyVal) :
  status_of env = inr (PStr "0") ->
  list_node (GetCheckedOutFilesByUser t a x) env = Some (inr (PList l)) ->
  forallb (fun fd => has_keys fd checked_out_required) l = true ->
  on_envelope (GetCheckedOutFilesByUser t a x) env
  = inr (PDict [(KStr "checked_out_files", PList (map checked_out_record l))]).
Proof.
  unfold status_of. intros Hs Hn Hl.
  pose (unSome := fun o : option (Exc PyVal) =>
                    match o with Some x => x | None => inl TypeError end).
  apply (f_equal unSome) in Hn.
  cbv beta iota delta [list_node unSome] in Hn.
  on_envelope_body. rewrite Hs. reduce_body.
  cbn -[py_path py_get] in Hn.
  destruct (py_path env ["Docsvault"; "Result"]) as [e|r]; [discriminate Hn|].
  rewrite Hn. cbn [py_is_dict].
  rewrite py_dict_singleton. unfold py_listcomp. cbn [py_iter].
  cbn -[mapM py_dict py_getitem py_get checked_out_record].
  pose proof (mapM_ok _ checked_out_record _ l
                (fun fd Hfd => checked_out_record_ok fd Hfd) Hl) as Hm.
  cbn -[mapM py_dict py_getitem py_get checked_out_record] in Hm.
  rewrite Hm. reflexivity.
Qed.

Lemma checked_out_files_projection_witness :
  exists rec,
    on_envelope (GetCheckedOutFilesByUser "T1" "http://host" "")
      (sample_file_envelope (PList [sample_file_detail [] []]))
    = inr (PDict [(KStr "checked_out_files", PList [PDict rec])])
    /\ dict_lookup (KStr "checked_out") rec = Some (PBool false)
    /\ dict_lookup (KStr "checked_out_by") rec = Some (PStr "").
Proof.
  eexists. split.
  - exact (checked_out_files_projection "T1" "http://host" ""
             (sample_file_envelope (PList [sample_file_detail [] []]))
             [sample_file_detail [] []] eq_refl eq_refl eq_refl).
  - split; reflexivity.
Defined.

(** ** Folders *)




(** ** The index values of a file profile *)






(** ** A FileDetail node without ListOfIndexes *)

(** X17: when the FileDetail node has every scalar field but no
    ListOfIndexes, [docsvault_get_file_details] raises
    [KeyError "ListOfIndexes"], while [docsvault_get_file_profile] returns an
    empty [index_values] and [docsvault_get_file_details_by_location] (given
    the three check-out fields) an empty [list_of_indexes]. *)
Theorem missing_list_of_indexes
  (t a x : string) (env : PyVal) (d : list (PyKey * PyVal)) :
  status_of env = inr (PStr "0") ->
  py_path env ["Docsvault"; "Result"; "FileDetail"] = inr (PDict d) ->
  has_keys (PDict d) (map snd file_detail_fields) = true ->
  dict_lookup (KStr "ListOfIndexes") d = None ->
  on_envelope (GetFileDetails t a x) env = inl (KeyError "ListOfIndexes")
  /\ on_envelope (GetFileProfile t a x) env
     = inr (PDict (projected_items profile_fields (PDict d)
                   ++ [(KStr "index_values", PDict [])]))
  /\ (has_keys (PDict d) (map snd check_out_fields) = true ->
      on_envelope (GetFileDetailsByLocation t a x) env
      = inr (PDict (projected_items
                      (firstn 15 file_detail_fields ++ check_out_fields
                       ++ skipn 15 file_detail_fields) (PDict d)
                    ++ [(KStr "list_of_indexes", PList [])]))).
Proof.
  unfold status_of. intros Hs Hfd Hk Hno. split; [|split].
  - on_envelope_body. rewrite Hs. reduce_body. rewrite Hfd.
    cbn -[py_path py_getitem py_get py_dict py_listcomp].
    read_fields (PDict d) Hk. rewrite !py_get_field.
    cbn -[field]. rewrite Hno. reflexivity.
  - on_envelope_body. rewrite Hs. reduce_body. rewrite Hfd.
    cbn -[py_getitem py_dict field]. rewrite Hno.
    cbn -[py_getitem py_dict field].
    read_fields (PDict d) Hk. reflexivity.
  - intros Hc.
    on_envelope_body. rewrite Hs. reduce_body. rewrite Hfd.
    cbn -[py_path py_getitem py_get py_dict py_listcomp].
    read_fields (PDict d) Hk. read_fields (PDict d) Hc.
    cbn -[field]. rewrite Hno. reflexivity.
Qed.

Lemma missing_list_of_indexes_witness :
  on_envelope (GetFileDetails "T1" "http://host" "12")
    (sample_file_envelope (sample_file_detail [] []))
  = inl (KeyError "ListOfIndexes").
Proof.
  exact (proj1 (missing_list_of_indexes "T1" "http://host" "12"
                  (sample_file_envelope (sample_file_detail [] []))
                  _ eq_refl eq_refl eq_refl eq_refl)).
Defined.

(** ** A lone Indexes record elsewhere *)

(** X18: a lone Indexes record (a non-empty mapping instead of a list) is
    not wrapped by the remaining routines either:
    [docsvault_get_file_profile] raises [TypeError], and the three folder
    routines raise [AttributeError]. *)
Theorem lone_indexes_record_raises
  (t a x : string) (env node : PyVal) (kv : PyKey * PyVal) (rest : list (PyKey * PyVal)) :
  status_of env = inr (PStr "0") ->
  indexes_of node = inr (PDict (kv :: rest)) ->
  (py_path env ["Docsvault"; "Result"; "FileDetail"] = inr node ->
   on_envelope (GetFileProfile t a x) env = inl TypeError)
  /\ (forall c fields res,
         folder_fields c = Some fields ->
         result_of env = inr res ->
         py_get res "FolderDetail" (PDict []) = inr node ->
         on_envelope c env = inl AttributeError).
Proof.
  unfold status_of, indexes_of, result_of. intros Hs Hix.
  cbn -[py_get] in Hix.
  destruct (py_get node "ListOfIndexes" (PDict [])) as [e|loi] eqn:Hloi;
    [discriminate Hix|].
  assert (Hd : exists d, node = PDict d).
  { destruct node; try discriminate Hloi. eexists. reflexivity. }
  destruct Hd as [d ->]. destruct kv as [k v].
  split.
  - intros Hfd. on_envelope_body. rewrite Hs. reduce_body. rewrite Hfd.
    cbn -[py_get py_getitem py_dict py_dictcomp]. rewrite Hloi.
    cbn -[py_get py_getitem py_dict py_dictcomp]. rewrite Hix.
    destruct k; reflexivity.
  - intros c fields res Hf Hr Hfd.
    destruct c; try discriminate Hf;
      on_envelope_body; rewrite Hs; reduce_body; rewrite Hr; reduce_body;
      rewrite Hfd; cbn -[py_get py_dict py_listcomp];
      rewrite !py_get_field, Hloi; cbn -[py_get py_dict py_listcomp field];
      rewrite Hix; destruct k; reflexivity.
Qed.

Lemma lone_indexes_record_raises_witness :
  on_envelope (GetFileProfile "T1" "http://host" "12")
    (sample_file_envelope
       (sample_file_detail []
          [(KStr "ListOfIndexes", PDict [(KStr "Indexes", sample_index)])]))
  = inl TypeError.
Proof.
  exact (proj1 (lone_indexes_record_raises "T1" "http://host" "12"
                  (sample_file_envelope
                     (sample_file_detail []
                        [(KStr "ListOfIndexes", PDict [(KStr "Indexes", sample_index)])]))
                  (sample_file_detail []
                     [(KStr "ListOfIndexes", PDict [(KStr "Indexes", sample_index)])])
                  (KStr "Index", PStr "Vendor") [(KStr "IndexValue", PStr "Acme")]
                  eq_refl eq_refl) eq_refl).
Defined.
